(** * Course platform views: a shallow embedding of [courses/views.py] and
    [courses/api/views.py].

    The persistent store is a record of tables, each a finite map from primary
    key to row.  A view is a function from the store and the request to the
    new store and the response; an uncaught Python exception is the response
    [ServerError] with the store as it was when the exception was raised. *)

From stdpp Require Import base option list gmap fin_maps strings.
From Stdlib Require Import ZArith Lia.

Local Open Scope Z_scope.
Local Open Scope string_scope.

(** ** Data model (the rows the views read and write) *)

(** [Course]: the owner is a foreign key to the user table. *)
Record CourseRow := {
  course_owner : Z;
  course_subject : Z;
  course_title : string;
  course_slug : string;
  course_overview : string
}.

(** [Module]: belongs to one course and carries an integer order. *)
Record ModuleRow := {
  module_course : Z;
  module_title : string;
  module_description : string;
  module_order : Z
}.

(** The four item models a [Content] row can point to. *)
Inductive ItemModel := Text | File | Image | Video.

#[global] Instance ItemModel_eq_dec : EqDecision ItemModel.
Proof. solve_decision. Defined.

#[global] Instance ItemModel_countable : Countable ItemModel.
Proof.
  refine (inj_countable'
    (λ m, match m with Text => 0%nat | File => 1%nat | Image => 2%nat | Video => 3%nat end)
    (λ n, match n with 0%nat => Text | 1%nat => File | 2%nat => Image | _ => Video end) _).
  by intros [].
Defined.

(** An item row: its owner and the values of its editable fields. *)
Record ItemRow := {
  item_owner : Z;
  item_data : list (string * string)
}.

(** [Content]: the join row; [item] is a generic foreign key, that is a
    content type together with an object id. *)
Record ContentRow := {
  content_module : Z;
  content_type : ItemModel;
  content_object_id : Z;
  content_order : Z
}.

(** The store.  [students] is the through table of [Course.students]:
    pairs (course id, user id), in insertion order. *)
Record DB := {
  courses : gmap Z CourseRow;
  modules : gmap Z ModuleRow;
  contents : gmap Z ContentRow;
  items : gmap (ItemModel * Z) ItemRow;
  students : list (Z * Z)
}.

Definition set_courses (t : gmap Z CourseRow) (db : DB) : DB :=
  {| courses := t; modules := modules db; contents := contents db;
     items := items db; students := students db |}.

Definition set_modules (t : gmap Z ModuleRow) (db : DB) : DB :=
  {| courses := courses db; modules := t; contents := contents db;
     items := items db; students := students db |}.

Definition set_contents (t : gmap Z ContentRow) (db : DB) : DB :=
  {| courses := courses db; modules := modules db; contents := t;
     items := items db; students := students db |}.

Definition set_items (t : gmap (ItemModel * Z) ItemRow) (db : DB) : DB :=
  {| courses := courses db; modules := modules db; contents := contents db;
     items := t; students := students db |}.

Definition set_students (t : list (Z * Z)) (db : DB) : DB :=
  {| courses := courses db; modules := modules db; contents := contents db;
     items := items db; students := t |}.

(** [request.user] as the access mixins and permission classes see it. *)
Record User := {
  user_id : Z;
  is_authenticated : bool;
  user_perms : list string
}.

Definition has_perm (u : User) (perm : string) : bool :=
  bool_decide (perm ∈ user_perms u).

(** ** Forms *)

(** A bound [ModelForm] of a course: the cleaned values and the verdict of
    [is_valid()], which the form library computes. *)
Record CourseForm := {
  cf_subject : Z;
  cf_title : string;
  cf_slug : string;
  cf_overview : string;
  cf_is_valid : bool
}.

(** A bound form of an item, built by [modelform_factory] with owner, order,
    created and updated excluded. *)
Record ItemForm := {
  if_data : list (string * string);
  if_is_valid : bool
}.

(** One row of the module formset: the hidden id of an existing module (or
    none for an extra row), the two edited fields, the DELETE box and the
    row's own validation verdict. *)
Record ModuleFormRow := {
  row_id : option Z;
  row_title : string;
  row_description : string;
  row_DELETE : bool;
  row_is_valid : bool
}.

(** ** Responses *)

Inductive json := JStr (s : string) | JBool (b : bool).

Inductive ctx_value :=
| CtxCourse (pk : Z)
| CtxModule (pk : Z)
| CtxObject (obj : option (ItemModel * Z))
| CtxCourseForm (f : option CourseForm)
| CtxItemForm (f : option ItemForm)
| CtxFormset (rows : list ModuleFormRow) (bound : bool).

Inductive HttpResponse :=
| JsonResponse (payload : list (string * json))
| Redirect (to : string) (args : list Z)
| TemplateResponse (template : string) (context : list (string * ctx_value))
| RedirectToLogin
| PermissionDenied
| NotAuthenticated
| Http404
| ServerError (exc : string).

Inductive Method := GET | POST.

(** ** ORM look-ups used by the views *)

(** Primary key given to the next inserted row: one more than the largest
    key in use (keys start at 1). *)
Definition max_pk (ks : list Z) : Z := foldr Z.max 0 ks.

Definition next_pk {A} (t : gmap Z A) : Z :=
  Z.succ (max_pk (map_to_list t).*1).

Definition item_pks (t : gmap (ItemModel * Z) ItemRow) (model : ItemModel) : list Z :=
  omap (λ kv : (ItemModel * Z) * ItemRow,
          if decide (kv.1.1 = model) then Some kv.1.2 else None)
       (map_to_list t).

Definition next_item_pk (t : gmap (ItemModel * Z) ItemRow) (model : ItemModel) : Z :=
  Z.succ (max_pk (item_pks t model)).

(** [Course] rows with [id = pk] and [owner = u]. *)
Definition Course_get (db : DB) (pk u : Z) : option CourseRow :=
  match courses db !! pk with
  | Some c => if decide (course_owner c = u) then Some c else None
  | None => None
  end.

(** [Module] rows with [id = pk] and [course__owner = u]. *)
Definition Module_get (db : DB) (pk u : Z) : option ModuleRow :=
  match modules db !! pk with
  | Some m =>
      match courses db !! module_course m with
      | Some c => if decide (course_owner c = u) then Some m else None
      | None => None
      end
  | None => None
  end.

(** [Content] rows with [id = pk] and [module__course__owner = u]. *)
Definition Content_get (db : DB) (pk u : Z) : option ContentRow :=
  match contents db !! pk with
  | Some c =>
      match Module_get db (content_module c) u with
      | Some _ => Some c
      | None => None
      end
  | None => None
  end.

(** Item rows of model [model] with [id = pk] and [owner = u]. *)
Definition Item_get (db : DB) (model : ItemModel) (pk u : Z) : option ItemRow :=
  match items db !! (model, pk) with
  | Some it => if decide (item_owner it = u) then Some it else None
  | None => None
  end.

(** ** The ordering views *)

Definition with_module_order (order : Z) (m : ModuleRow) : ModuleRow :=
  {| module_course := module_course m; module_title := module_title m;
     module_description := module_description m; module_order := order |}.

Definition with_content_order (order : Z) (c : ContentRow) : ContentRow :=
  {| content_module := content_module c; content_type := content_type c;
     content_object_id := content_object_id c; content_order := order |}.

(** [Module.objects.filter(id=id, course__owner=u).update(order=order)] *)
Definition Module_update_order (u id order : Z) (db : DB) : DB :=
  match Module_get db id u with
  | Some m => set_modules (<[id := with_module_order order m]> (modules db)) db
  | None => db
  end.

(** [Content.objects.filter(id=id, module__course__owner=u).update(order=order)] *)
Definition Content_update_order (u id order : Z) (db : DB) : DB :=
  match Content_get db id u with
  | Some c => set_contents (<[id := with_content_order order c]> (contents db)) db
  | None => db
  end.

(** [ModuleOrderView.post]: [request_json] is the parsed JSON object, given
    by its items in iteration order. *)
Definition ModuleOrderView_post (db : DB) (u : Z) (request_json : list (Z * Z))
  : DB * HttpResponse :=
  (foldl (λ d kv, Module_update_order u kv.1 kv.2 d) db request_json,
   JsonResponse [("saved", JStr "OK")]).

(** [ContentOrderView.post] *)
Definition ContentOrderView_post (db : DB) (u : Z) (request_json : list (Z * Z))
  : DB * HttpResponse :=
  (foldl (λ d kv, Content_update_order u kv.1 kv.2 d) db request_json,
   JsonResponse [("saved", JStr "Ok")]).

(** ** The owner-scoped course views *)

(** [OwnerMixin.get_queryset]: the rows of the model with
    [owner = request.user]. *)
Definition OwnerMixin_get_queryset (db : DB) (u : User) : gmap Z CourseRow :=
  filter (λ kv : Z * CourseRow, course_owner kv.2 = user_id u) (courses db).

(** [SingleObjectMixin.get_object]: the row of the queryset with the given
    primary key; [None] stands for the raised [Http404]. *)
Definition get_object (queryset : gmap Z CourseRow) (pk : Z) : option CourseRow :=
  queryset !! pk.

(** The instance a valid course form saves, after [OwnerEditMixin.form_valid]
    has stamped the owner. *)
Definition CourseForm_instance (owner : Z) (f : CourseForm) : CourseRow :=
  {| course_owner := owner; course_subject := cf_subject f;
     course_title := cf_title f; course_slug := cf_slug f;
     course_overview := cf_overview f |}.

(** Deleting a course row.
    Modelled from the spec: models.py is not among the sources; by the data
    model a Module belongs to exactly one Course and a Content to one Module
    and the student set is the course's own, so these rows go with it. *)
Definition Course_delete (pk : Z) (db : DB) : DB :=
  let ms := filter (λ kv : Z * ModuleRow, module_course kv.2 ≠ pk) (modules db) in
  {| courses := delete pk (courses db);
     modules := ms;
     contents := filter (λ kv : Z * ContentRow, is_Some (ms !! content_module kv.2))
                        (contents db);
     items := items db;
     students := filter (λ cu : Z * Z, cu.1 ≠ pk) (students db) |}.

(** [CourseUpdateView]: the class order puts [LoginRequiredMixin.dispatch]
    first, then [PermissionRequiredMixin.dispatch], then the handler, which
    begins with [get_object()] on the owner's queryset. *)
Definition CourseUpdateView (db : DB) (u : User) (method : Method) (pk : Z)
    (form : CourseForm) : DB * HttpResponse :=
  if negb (is_authenticated u) then (db, RedirectToLogin)
  else if negb (has_perm u "courses.change_course") then (db, PermissionDenied)
  else
    match get_object (OwnerMixin_get_queryset db u) pk with
    | None => (db, Http404)
    | Some _ =>
        match method with
        | GET =>
            (db, TemplateResponse "courses/manage/course/form.html"
                   [("object", CtxCourse pk); ("form", CtxCourseForm None)])
        | POST =>
            if cf_is_valid form then
              (set_courses (<[pk := CourseForm_instance (user_id u) form]> (courses db)) db,
               Redirect "manage_course_list" [])
            else
              (db, TemplateResponse "courses/manage/course/form.html"
                     [("object", CtxCourse pk); ("form", CtxCourseForm (Some form))])
        end
    end.

(** [CourseDeleteView] *)
Definition CourseDeleteView (db : DB) (u : User) (method : Method) (pk : Z)
  : DB * HttpResponse :=
  if negb (is_authenticated u) then (db, RedirectToLogin)
  else if negb (has_perm u "courses.delete_course") then (db, PermissionDenied)
  else
    match get_object (OwnerMixin_get_queryset db u) pk with
    | None => (db, Http404)
    | Some _ =>
        match method with
        | GET =>
            (db, TemplateResponse "courses/manage/course/delete.html"
                   [("object", CtxCourse pk)])
        | POST => (Course_delete pk db, Redirect "manage_course_list" [])
        end
    end.

(** ** The module formset view *)

(** Modelled from the spec: [ModuleFormSet] is declared in forms.py, which is
    not among the sources.  All rows are validated together and the formset
    is valid only when every row is. *)
Definition ModuleFormSet_is_valid (rows : list ModuleFormRow) : bool :=
  forallb row_is_valid rows.

(** Modelled from the spec: the order a newly created module receives is
    fresh, one more than the largest order among the course's modules. *)
Definition fresh_module_order (db : DB) (course : Z) : Z :=
  map_fold (λ _ (m : ModuleRow) acc,
              if decide (module_course m = course)
              then Z.max (Z.succ (module_order m)) acc else acc)
           0 (modules db).

(** Saving one row: a row of an existing module of the course deletes it when
    its DELETE box is ticked and otherwise stores the two edited fields; an
    extra row creates a module of the course unless its DELETE box is ticked. *)
Definition ModuleFormSet_save_row (course : Z) (db : DB) (r : ModuleFormRow) : DB :=
  match row_id r with
  | Some i =>
      match modules db !! i with
      | Some m =>
          if decide (module_course m = course) then
            if row_DELETE r then set_modules (delete i (modules db)) db
            else set_modules
                   (<[i := {| module_course := module_course m;
                              module_title := row_title r;
                              module_description := row_description r;
                              module_order := module_order m |}]> (modules db)) db
          else db
      | None => db
      end
  | None =>
      if row_DELETE r then db
      else set_modules
             (<[next_pk (modules db) :=
                  {| module_course := course; module_title := row_title r;
                     module_description := row_description r;
                     module_order := fresh_module_order db course |}]> (modules db)) db
  end.

(** Modelled from the spec: on success all module rows are persisted, and a
    deleted row removes the corresponding Module. *)
Definition ModuleFormSet_save (course : Z) (rows : list ModuleFormRow) (db : DB) : DB :=
  foldl (ModuleFormSet_save_row course) db rows.

(** The row a module becomes when a formset row is saved over it. *)
Definition row_over (r : ModuleFormRow) (m : ModuleRow) : ModuleRow :=
  {| module_course := module_course m; module_title := row_title r;
     module_description := row_description r; module_order := module_order m |}.

(** The rows of the unbound formset shown on GET: the course's modules. *)
Definition ModuleFormSet_initial (db : DB) (course : Z) : list ModuleFormRow :=
  omap (λ kv : Z * ModuleRow,
          if decide (module_course kv.2 = course)
          then Some {| row_id := Some kv.1; row_title := module_title kv.2;
                        row_description := module_description kv.2;
                        row_DELETE := false; row_is_valid := true |}
          else None)
       (map_to_list (modules db)).

(** [CourseModuleUpdateView]: [dispatch] loads the course of the requester,
    then [get] or [post] runs; [data] is the submitted formset. *)
Definition CourseModuleUpdateView (db : DB) (u : Z) (method : Method) (pk : Z)
    (data : list ModuleFormRow) : DB * HttpResponse :=
  match Course_get db pk u with
  | None => (db, Http404)
  | Some _ =>
      match method with
      | GET =>
          (db, TemplateResponse "courses/manage/module/formset.html"
                 [("course", CtxCourse pk);
                  ("formset", CtxFormset (ModuleFormSet_initial db pk) false)])
      | POST =>
          if ModuleFormSet_is_valid data then
            (ModuleFormSet_save pk data db, Redirect "manage_course_list" [])
          else
            (db, TemplateResponse "courses/manage/module/formset.html"
                   [("formset", CtxFormset data true)])
      end
  end.

(** ** The content item editor *)

(** [apps.get_model(app_label="courses", model_name=...)]: the registry
    entry for a lower-case model name; [None] is the raised [LookupError]. *)
Definition apps_get_model (model_name : string) : option ItemModel :=
  if decide (model_name = "text") then Some Text
  else if decide (model_name = "file") then Some File
  else if decide (model_name = "image") then Some Image
  else if decide (model_name = "video") then Some Video
  else None.

(** [ContentCreateUpdateView.get_model]; the result [None] is Python's
    [None]. *)
Definition get_model (model_name : string) : option ItemModel :=
  if bool_decide (model_name ∈ ["text"; "file"; "image"; "video"])
  then apps_get_model model_name
  else None.

(** Truth value of the [id] keyword in [if id:]: [None] and [0] are false. *)
Definition truthy (id : option Z) : bool :=
  match id with
  | Some n => negb (Z.eqb n 0)
  | None => false
  end.

(** Modelled from the spec: the order of a new [Content] row is fresh, one
    more than the largest order among the module's contents (the order field
    is declared outside the sources). *)
Definition fresh_content_order (db : DB) (module : Z) : Z :=
  map_fold (λ _ (c : ContentRow) acc,
              if decide (content_module c = module)
              then Z.max (Z.succ (content_order c)) acc else acc)
           0 (contents db).

(** [Content.objects.create(module=module, item=obj)] *)
Definition Content_create (module : Z) (model : ItemModel) (obj_pk : Z) (db : DB) : DB :=
  set_contents
    (<[next_pk (contents db) :=
         {| content_module := module; content_type := model;
            content_object_id := obj_pk;
            content_order := fresh_content_order db module |}]> (contents db)) db.

(** What [dispatch] leaves in [self.module], [self.model] and [self.obj]
    before the handler runs, or the response that ends the request. *)
Definition ContentCreateUpdateView_dispatch (db : DB) (u module_id : Z)
    (model_name : string) (id : option Z)
  : HttpResponse + (Z * option ItemModel * option Z) :=
  match Module_get db module_id u with
  | None => inl Http404
  | Some _ =>
      let model := get_model model_name in
      if truthy id then
        match model with
        | None => inl (ServerError "ValueError")
        | Some md =>
            match Item_get db md (default 0 id) u with
            | None => inl Http404
            | Some _ => inr (module_id, model, id)
            end
        end
      else inr (module_id, model, None)
  end.

(** [ContentCreateUpdateView]: [dispatch], then [get] or [post].  Both
    handlers start with [get_form], and [modelform_factory] raises on the
    model [None]; [get_object_or_404] in [dispatch] raises on it too. *)
Definition ContentCreateUpdateView (db : DB) (u : Z) (method : Method)
    (module_id : Z) (model_name : string) (id : option Z) (data : ItemForm)
  : DB * HttpResponse :=
  match ContentCreateUpdateView_dispatch db u module_id model_name id with
  | inl resp => (db, resp)
  | inr (module, model, obj) =>
      match model with
      | None => (db, ServerError "AttributeError")
      | Some md =>
          match method with
          | GET =>
              (db, TemplateResponse "courses/manage/content/form.html"
                     [("form", CtxItemForm None);
                      ("object", CtxObject (pair md <$> obj))])
          | POST =>
              if if_is_valid data then
                let pk := match obj with
                          | Some i => i
                          | None => next_item_pk (items db) md
                          end in
                let db1 := set_items
                             (<[(md, pk) := {| item_owner := u;
                                               item_data := if_data data |}]> (items db))
                             db in
                let db2 := if negb (truthy id)
                           then Content_create module md pk db1 else db1 in
                (db2, Redirect "module_content_list" [module])
              else
                (db, TemplateResponse "courses/manage/content/form.html"
                       [("form", CtxItemForm (Some data));
                        ("object", CtxObject (pair md <$> obj))])
          end
      end
  end.

(** ** Content deletion *)

(** The statements of [ContentDeleteView.post] that write to the store, in
    program order; each is a statement of its own, with no enclosing
    transaction in the view. *)
Definition ContentDeleteView_statements (id : Z) (content : ContentRow)
  : list (DB → DB) :=
  [ (λ db, set_items
             (delete (content_type content, content_object_id content) (items db)) db);
    (λ db, set_contents (delete id (contents db)) db) ].

(** The stores after each statement, the initial store first. *)
Fixpoint run_statements (db : DB) (stmts : list (DB → DB)) : list DB :=
  match stmts with
  | [] => [db]
  | s :: rest => db :: run_statements (s db) rest
  end.

(** The successive stores of one call of [ContentDeleteView.post].  The
    generic foreign key [content.item] is [None] when its target row is
    missing, and [None.delete()] raises before anything is written. *)
Definition ContentDeleteView_trace (db : DB) (u id : Z) : list DB :=
  match Content_get db id u with
  | None => [db]
  | Some content =>
      match items db !! (content_type content, content_object_id content) with
      | None => [db]
      | Some _ => run_statements db (ContentDeleteView_statements id content)
      end
  end.

(** A run is atomic when every store it passes through is the one it
    started from or the one it ends in. *)
Definition atomic_trace (tr : list DB) : Prop :=
  ∀ d, d ∈ tr → head tr = Some d ∨ last tr = Some d.

(** [ContentDeleteView.post] *)
Definition ContentDeleteView_post (db : DB) (u id : Z) : DB * HttpResponse :=
  match Content_get db id u with
  | None => (db, Http404)
  | Some content =>
      match items db !! (content_type content, content_object_id content) with
      | None => (db, ServerError "AttributeError")
      | Some _ =>
          (foldl (λ d s, s d) db (ContentDeleteView_statements id content),
           Redirect "module_content_list" [content_module content])
      end
  end.

(** ** The enrolment endpoints of the REST API *)

(** [course.students.add(user)]: the pair is inserted in the through table
    unless it is there already. *)
Definition students_add (course user : Z) (db : DB) : DB :=
  if decide ((course, user) ∈ students db) then db
  else set_students (students db ++ [(course, user)]) db.

(** The student set of a course, as the list of its user ids. *)
Definition Course_students (db : DB) (course : Z) : list Z :=
  omap (λ cu : Z * Z, if decide (cu.1 = course) then Some cu.2 else None)
       (students db).

(** [IsAuthenticated.has_permission] *)
Definition IsAuthenticated_has_permission (u : User) : bool :=
  is_authenticated u.

(** [BasePermission.has_object_permission], which [IsAuthenticated]
    inherits. *)
Definition IsAuthenticated_has_object_permission (u : User) (c : CourseRow) : bool :=
  true.

(** [CourseEnrollView.post]; the permission classes run before the handler. *)
Definition CourseEnrollView_post (db : DB) (u : User) (pk : Z) : DB * HttpResponse :=
  if negb (IsAuthenticated_has_permission u) then (db, NotAuthenticated)
  else
    match courses db !! pk with
    | None => (db, Http404)
    | Some _ =>
        (students_add pk (user_id u) db, JsonResponse [("enrolled", JBool true)])
    end.

(** [GenericAPIView.get_object] on [Course.objects.all()]: the row with the
    primary key of the URL, then the object-level permission check. *)
Definition CourseViewSet_get_object (db : DB) (u : User) (pk : Z)
  : HttpResponse + CourseRow :=
  let queryset := courses db in
  match filter (λ kv : Z * CourseRow, kv.1 = pk) queryset !! pk with
  | None => inl Http404
  | Some c =>
      if IsAuthenticated_has_object_permission u c then inr c
      else inl PermissionDenied
  end.

(** [CourseViewSet.enroll] *)
Definition CourseViewSet_enroll (db : DB) (u : User) (pk : Z) : DB * HttpResponse :=
  if negb (IsAuthenticated_has_permission u) then (db, NotAuthenticated)
  else
    match CourseViewSet_get_object db u pk with
    | inl resp => (db, resp)
    | inr _ =>
        (students_add pk (user_id u) db, JsonResponse [("enrolled", JBool true)])
    end.

(** What a serializer-backed API action answers: the instance handed to the
    named serializer class, or the response that ended the request. *)
Inductive ApiResponse :=
| Serialized (serializer_class : string) (pk : Z) (instance : CourseRow)
| Refused (resp : HttpResponse).

(** [CourseViewSet.contents]: [retrieve] under the action's own permission
    classes, which are [IsAuthenticated] alone, and its own serializer. *)
Definition CourseViewSet_contents (db : DB) (u : User) (pk : Z) : ApiResponse :=
  if negb (IsAuthenticated_has_permission u) then Refused NotAuthenticated
  else
    match CourseViewSet_get_object db u pk with
    | inl resp => Refused resp
    | inr c => Serialized "CourseWithContentsSerializer" pk c
    end.

(** ** The remaining owner views *)

(** [CourseCreateView]: the access mixins, then [CreateView]; a valid form is
    saved as a new row once [OwnerEditMixin.form_valid] has set its owner. *)
Definition CourseCreateView (db : DB) (u : User) (method : Method)
    (form : CourseForm) : DB * HttpResponse :=
  if negb (is_authenticated u) then (db, RedirectToLogin)
  else if negb (has_perm u "courses.add_course") then (db, PermissionDenied)
  else
    match method with
    | GET =>
        (db, TemplateResponse "courses/manage/course/form.html"
               [("form", CtxCourseForm None)])
    | POST =>
        if cf_is_valid form then
          (set_courses (<[next_pk (courses db) := CourseForm_instance (user_id u) form]>
                          (courses db)) db,
           Redirect "manage_course_list" [])
        else
          (db, TemplateResponse "courses/manage/course/form.html"
                 [("form", CtxCourseForm (Some form))])
    end.

(** [ManageCourseListView] on GET: the access mixins, then the template with
    the object list, which is [OwnerMixin.get_queryset]. *)
Definition ManageCourseListView_get (db : DB) (u : User)
  : HttpResponse + (string * gmap Z CourseRow) :=
  if negb (is_authenticated u) then inl RedirectToLogin
  else if negb (has_perm u "courses.view_course") then inl PermissionDenied
  else inr ("courses/manage/course/list.html", OwnerMixin_get_queryset db u).


(** ** Scoped updates on one table

    Both ordering views run, for each pair of the batch, an update that is
    scoped by an ownership test reading other tables only.  [scoped_update]
    is that statement seen from the table it writes. *)
Definition scoped_update {A} (owned : A → bool) (set : Z → A → A)
    (id order : Z) (t : gmap Z A) : gmap Z A :=
  match t !! id with
  | Some a => if owned a then <[id := set order a]> t else t
  | None => t
  end.

Definition scoped_batch {A} (owned : A → bool) (set : Z → A → A)
    (t : gmap Z A) (batch : list (Z * Z)) : gmap Z A :=
  foldl (λ t kv, scoped_update owned set kv.1 kv.2 t) t batch.

(** The order of the last pair of a batch that names the id, if any: the
    pairs are applied in iteration order, so a later pair for the same id
    overwrites an earlier one. *)
Definition batch_order (id : Z) (batch : list (Z * Z)) : option Z :=
  last (omap (λ kv : Z * Z, if decide (kv.1 = id) then Some kv.2 else None) batch).

(** A row after a batch is the row before it, up to its order. *)
Definition reordered {A} (set : Z → A → A) (a a' : A) : Prop :=
  a' = a ∨ ∃ o, a' = set o a.

(** The ownership tests of the two ordering views, on a row. *)
Definition module_owned (cs : gmap Z CourseRow) (u : Z) (m : ModuleRow) : bool :=
  match cs !! module_course m with
  | Some c => bool_decide (course_owner c = u)
  | None => false
  end.

Definition content_owned (db : DB) (u : Z) (c : ContentRow) : bool :=
  bool_decide (is_Some (Module_get db (content_module c) u)).

(** ** Example stores

    User 10 owns course 1, user 20 owns course 2.  Modules 5 and 7 belong to
    course 1, module 6 to course 2.  Content 1 wraps text 1 in module 5 and
    content 2 wraps video 1 in module 6. *)
Definition course_of (owner : Z) (title : string) : CourseRow :=
  {| course_owner := owner; course_subject := 1; course_title := title;
     course_slug := title; course_overview := "" |}.

Definition module_of (course order : Z) : ModuleRow :=
  {| module_course := course; module_title := "m"; module_description := "";
     module_order := order |}.

Definition db0 : DB :=
  {| courses := {[ 1 := course_of 10 "algebra"; 2 := course_of 20 "botany" ]};
     modules := {[ 5 := module_of 1 0; 6 := module_of 2 0; 7 := module_of 1 1 ]};
     contents :=
       {[ 1 := {| content_module := 5; content_type := Text;
                  content_object_id := 1; content_order := 0 |};
          2 := {| content_module := 6; content_type := Video;
                  content_object_id := 1; content_order := 0 |} ]};
     items :=
       {[ (Text, 1) := {| item_owner := 10; item_data := [("title", "intro")] |};
          (Video, 1) := {| item_owner := 20; item_data := [("title", "clip")] |} ]};
     students := [] |}.

Definition alice : User :=
  {| user_id := 10; is_authenticated := true;
     user_perms := ["courses.view_course"; "courses.add_course";
                    "courses.change_course"; "courses.delete_course"] |}.

Definition bob : User :=
  {| user_id := 20; is_authenticated := true;
     user_perms := ["courses.view_course"; "courses.add_course";
                    "courses.change_course"; "courses.delete_course"] |}.

(** A logged-in user who was granted none of the course permissions. *)
Definition carol : User :=
  {| user_id := 30; is_authenticated := true; user_perms := [] |}.

(** A store is its five tables. *)
Lemma DB_eq (a b : DB) :
  courses a = courses b → modules a = modules b → contents a = contents b →
  items a = items b → students a = students b → a = b.
Proof. destruct a, b; simpl; congruence. Qed.

Lemma set_modules_id (db : DB) : set_modules (modules db) db = db.
Proof. by destruct db. Qed.

Lemma set_contents_id (db : DB) : set_contents (contents db) db = db.
Proof. by destruct db. Qed.

Section scoped.
Context {A : Type} (owned : A → bool) (set : Z → A → A).

Lemma scoped_update_lookup id o (t : gmap Z A) k :
  scoped_update owned set id o t !! k =
  (λ a, if decide (k = id) then (if owned a then set o a else a) else a) <$> t !! k.
Proof.
  unfold scoped_update.
  destruct (t !! id) as [a|] eqn:Ha.
  - destruct (owned a) eqn:Ho.
    + destruct (decide (k = id)) as [->|Hne].
      * rewrite lookup_insert_eq, Ha; simpl. by rewrite Ho.
      * rewrite lookup_insert_ne by done. by destruct (t !! k).
    + destruct (decide (k = id)) as [->|Hne].
      * rewrite Ha; simpl. by rewrite Ho.
      * by destruct (t !! k).
  - destruct (decide (k = id)) as [->|Hne].
    + by rewrite Ha.
    + by destruct (t !! k).
Qed.

Lemma scoped_batch_notin batch (t : gmap Z A) k :
  k ∉ batch.*1 → scoped_batch owned set t batch !! k = t !! k.
Proof.
  revert t. induction batch as [|[i o] rest IH]; intros t Hk; [done|].
  simpl in *. apply not_elem_of_cons in Hk as [Hne Hk].
  unfold scoped_batch in *; simpl. rewrite IH by done.
  rewrite scoped_update_lookup. destruct (decide (k = i)); [done|].
  by destruct (t !! k).
Qed.

Lemma scoped_batch_unowned batch (t : gmap Z A) k :
  (∀ a, t !! k = Some a → owned a = false) →
  scoped_batch owned set t batch !! k = t !! k.
Proof.
  revert t. induction batch as [|[i o] rest IH]; intros t Hk; [done|].
  unfold scoped_batch in *; simpl.
  assert (scoped_update owned set i o t !! k = t !! k) as Hstep.
  { rewrite scoped_update_lookup. destruct (t !! k) as [a|] eqn:Ha; [|done].
    simpl. rewrite (Hk a) by done. by destruct (decide (k = i)). }
  rewrite IH; [done|]. intros a. rewrite Hstep. apply Hk.
Qed.

Lemma scoped_batch_owned batch (t : gmap Z A) k o a :
  NoDup batch.*1 → (k, o) ∈ batch → t !! k = Some a → owned a = true →
  scoped_batch owned set t batch !! k = Some (set o a).
Proof.
  revert t a. induction batch as [|[i p] rest IH]; intros t a Hnd Hin Ha Ho.
  { by apply elem_of_nil in Hin. }
  simpl in Hnd. apply NoDup_cons in Hnd as [Hi Hnd].
  unfold scoped_batch in *; simpl.
  apply elem_of_cons in Hin as [Heq|Hin].
  - injection Heq as -> ->.
    fold (scoped_batch owned set (scoped_update owned set i p t) rest).
    rewrite scoped_batch_notin by done.
    rewrite scoped_update_lookup, Ha; simpl.
    rewrite decide_True by done. by rewrite Ho.
  - assert (k ≠ i) as Hne.
    { intros ->. apply Hi. apply list_elem_of_fmap. by exists (i, o). }
    apply IH; [done..| |done].
    rewrite scoped_update_lookup, Ha; simpl. by rewrite decide_False.
Qed.

Lemma scoped_update_comm i o j p (t : gmap Z A) :
  i ≠ j →
  scoped_update owned set i o (scoped_update owned set j p t) =
  scoped_update owned set j p (scoped_update owned set i o t).
Proof.
  intros Hne. apply map_eq; intros k.
  rewrite !scoped_update_lookup.
  destruct (t !! k) as [a|]; [|done]; simpl. f_equal.
  destruct (decide (k = i)) as [Hi|Hi]; destruct (decide (k = j)) as [Hj|Hj];
    congruence.
Qed.

Lemma scoped_batch_perm batch batch' (t : gmap Z A) :
  NoDup batch.*1 → batch ≡ₚ batch' →
  scoped_batch owned set t batch = scoped_batch owned set t batch'.
Proof.
  intros Hnd Hp. revert t Hnd.
  induction Hp as [|x l l' Hp IH|x y l|l l' l'' Hp1 IH1 Hp2 IH2]; intros t Hnd.
  - done.
  - simpl in Hnd. apply NoDup_cons in Hnd as [_ Hnd].
    unfold scoped_batch in *; simpl. by apply IH.
  - simpl in Hnd. apply NoDup_cons in Hnd as [Hy _].
    unfold scoped_batch; simpl. f_equal.
    apply scoped_update_comm. intros Heq. apply Hy. rewrite Heq. by left.
  - rewrite IH1 by done. apply IH2.
    by rewrite <- Hp1.
Qed.

End scoped.

(** ** Rows under a batch of scoped updates *)

Section scoped_rows.
Context {A : Type} (owned : A → bool) (set : Z → A → A).
Hypothesis owned_set : ∀ o a, owned (set o a) = owned a.
Hypothesis set_set : ∀ o o' a, set o (set o' a) = set o a.

Lemma scoped_update_reordered id o (t : gmap Z A) k :
  match t !! k, scoped_update owned set id o t !! k with
  | Some a, Some a' => reordered set a a'
  | None, None => True
  | _, _ => False
  end.
Proof.
  rewrite scoped_update_lookup. destruct (t !! k) as [a|]; simpl; [|done].
  destruct (decide (k = id)); [|by left].
  destruct (owned a); [right; by exists o|by left].
Qed.

Lemma scoped_batch_reordered batch : ∀ (t : gmap Z A) k,
  match t !! k, scoped_batch owned set t batch !! k with
  | Some a, Some a' => reordered set a a'
  | None, None => True
  | _, _ => False
  end.
Proof.
  induction batch as [|[i o] rest IH]; intros t k.
  { unfold scoped_batch; simpl. destruct (t !! k); [by left|done]. }
  change (scoped_batch owned set t ((i, o) :: rest))
    with (scoped_batch owned set (scoped_update owned set i o t) rest).
  pose proof (scoped_update_reordered i o t k) as H1.
  pose proof (IH (scoped_update owned set i o t) k) as H2.
  destruct (t !! k) as [a|], (scoped_update owned set i o t !! k) as [a1|],
    (scoped_batch owned set (scoped_update owned set i o t) rest !! k) as [a2|];
    try done.
  destruct H1 as [->|[o1 ->]]; [done|].
  destruct H2 as [->|[o2 ->]]; [right; by exists o1|].
  right. exists o2. by rewrite set_set.
Qed.

Lemma scoped_batch_lookup_in batch (t : gmap Z A) k o :
  NoDup batch.*1 → (k, o) ∈ batch →
  scoped_batch owned set t batch !! k =
  (λ a, if owned a then set o a else a) <$> t !! k.
Proof.
  intros Hnd Hin. destruct (t !! k) as [a|] eqn:Ha; simpl.
  - destruct (owned a) eqn:Ho.
    + by eapply scoped_batch_owned.
    + rewrite scoped_batch_unowned; [done|]. congruence.
  - rewrite scoped_batch_unowned; [done|]. congruence.
Qed.

Lemma scoped_batch_idem batch (t : gmap Z A) :
  NoDup batch.*1 →
  scoped_batch owned set (scoped_batch owned set t batch) batch =
  scoped_batch owned set t batch.
Proof.
  intros Hnd. apply map_eq; intros k.
  destruct (decide (k ∈ batch.*1)) as [Hin|Hin].
  - apply list_elem_of_fmap in Hin as ([k' o] & -> & Hin). simpl.
    rewrite !(scoped_batch_lookup_in batch _ k' o) by done.
    destruct (t !! k') as [a|]; [|done]. simpl. f_equal.
    destruct (owned a) eqn:Ho; [|by rewrite Ho].
    by rewrite owned_set, Ho, set_set.
  - by rewrite !scoped_batch_notin.
Qed.

Lemma batch_order_cons i o rest k :
  batch_order k ((i, o) :: rest) =
  if decide (i = k)
  then match batch_order k rest with Some y => Some y | None => Some o end
  else batch_order k rest.
Proof.
  unfold batch_order. simpl. destruct (decide (i = k)); [|done].
  apply last_cons.
Qed.

Lemma batch_order_notin batch k : k ∉ batch.*1 → batch_order k batch = None.
Proof.
  induction batch as [|[i o] rest IH]; intros Hk; [done|].
  simpl in Hk. apply not_elem_of_cons in Hk as [Hne Hk].
  rewrite batch_order_cons, decide_False by done. by apply IH.
Qed.

Lemma batch_order_NoDup batch k o :
  NoDup batch.*1 → (k, o) ∈ batch → batch_order k batch = Some o.
Proof.
  induction batch as [|[i p] rest IH]; intros Hnd Hin.
  { by apply elem_of_nil in Hin. }
  simpl in Hnd. apply NoDup_cons in Hnd as [Hi Hnd].
  rewrite batch_order_cons.
  apply elem_of_cons in Hin as [[= -> ->]|Hin].
  - rewrite decide_True by done. by rewrite batch_order_notin.
  - rewrite decide_False; [by apply IH|].
    intros ->. apply Hi. apply list_elem_of_fmap. by exists (k, o).
Qed.

(** The row of an id after a batch: an owned row carries the order of the
    last pair that names it, any other row is as it was. *)
Lemma scoped_batch_last batch : ∀ (t : gmap Z A) k,
  scoped_batch owned set t batch !! k =
  (λ a, if owned a
        then match batch_order k batch with Some o => set o a | None => a end
        else a) <$> t !! k.
Proof.
  induction batch as [|[i o] rest IH]; intros t k.
  { unfold scoped_batch; simpl. destruct (t !! k) as [a|]; [|done].
    simpl. by destruct (owned a). }
  change (scoped_batch owned set t ((i, o) :: rest))
    with (scoped_batch owned set (scoped_update owned set i o t) rest).
  rewrite IH, scoped_update_lookup, batch_order_cons.
  destruct (t !! k) as [a|]; [|done]. simpl. f_equal.
  destruct (decide (k = i)) as [->|Hne].
  - rewrite decide_True by done. destruct (owned a) eqn:Ho.
    + rewrite owned_set, Ho. destruct (batch_order i rest); [|done].
      by rewrite set_set.
    + by rewrite Ho.
  - rewrite decide_False by done. done.
Qed.

End scoped_rows.

Lemma with_module_order_twice o o' m :
  with_module_order o (with_module_order o' m) = with_module_order o m.
Proof. done. Qed.

Lemma with_content_order_twice o o' c :
  with_content_order o (with_content_order o' c) = with_content_order o c.
Proof. done. Qed.

(** ** The ordering views as scoped batches *)

Lemma Module_update_order_scoped u id o db :
  Module_update_order u id o db =
  set_modules (scoped_update (module_owned (courses db) u) with_module_order
                 id o (modules db)) db.
Proof.
  unfold Module_update_order, Module_get, scoped_update, module_owned.
  destruct (modules db !! id) as [m|]; [|by rewrite set_modules_id].
  destruct (courses db !! module_course m) as [c|]; [|by rewrite set_modules_id].
  destruct (decide (course_owner c = u)).
  - by rewrite bool_decide_eq_true_2.
  - rewrite bool_decide_eq_false_2 by done. by rewrite set_modules_id.
Qed.

Lemma Content_update_order_scoped u id o db :
  Content_update_order u id o db =
  set_contents (scoped_update (content_owned db u) with_content_order
                  id o (contents db)) db.
Proof.
  unfold Content_update_order, Content_get, scoped_update, content_owned.
  destruct (contents db !! id) as [c|]; [|by rewrite set_contents_id].
  destruct (Module_get db (content_module c) u) as [m|] eqn:Hm.
  - rewrite bool_decide_eq_true_2; [done|]. by exists m.
  - rewrite bool_decide_eq_false_2; [by rewrite set_contents_id|].
    by intros [? ?].
Qed.

Lemma ModuleOrderView_post_scoped db u batch :
  (ModuleOrderView_post db u batch).1 =
  set_modules (scoped_batch (module_owned (courses db) u) with_module_order
                 (modules db) batch) db.
Proof.
  unfold ModuleOrderView_post; simpl. revert db.
  induction batch as [|[i o] rest IH]; intros db; simpl.
  - by rewrite set_modules_id.
  - rewrite IH, Module_update_order_scoped. done.
Qed.

Lemma ContentOrderView_post_scoped db u batch :
  (ContentOrderView_post db u batch).1 =
  set_contents (scoped_batch (content_owned db u) with_content_order
                  (contents db) batch) db.
Proof.
  unfold ContentOrderView_post; simpl. revert db.
  induction batch as [|[i o] rest IH]; intros db; simpl.
  - by rewrite set_contents_id.
  - rewrite IH, Content_update_order_scoped. done.
Qed.

Lemma Module_get_owned db id u m :
  Module_get db id u = Some m →
  modules db !! id = Some m ∧ module_owned (courses db) u m = true.
Proof.
  unfold Module_get, module_owned. intros H.
  destruct (modules db !! id) as [m'|]; [|done].
  destruct (courses db !! module_course m') as [c|] eqn:Hc; [|done].
  destruct (decide (course_owner c = u)); [|done].
  injection H as <-. rewrite Hc. by rewrite bool_decide_eq_true_2.
Qed.

Lemma Module_get_unowned db id u a :
  Module_get db id u = None → modules db !! id = Some a →
  module_owned (courses db) u a = false.
Proof.
  unfold Module_get, module_owned. intros H Ha. rewrite Ha in H.
  destruct (courses db !! module_course a) as [c|]; [|done].
  destruct (decide (course_owner c = u)); [done|].
  by rewrite bool_decide_eq_false_2.
Qed.

Lemma Content_get_owned db id u c :
  Content_get db id u = Some c →
  contents db !! id = Some c ∧ content_owned db u c = true.
Proof.
  unfold Content_get, content_owned. intros H.
  destruct (contents db !! id) as [c'|]; [|done].
  destruct (Module_get db (content_module c') u) as [m|] eqn:Hm; [|done].
  injection H as <-. rewrite Hm. split; [done|].
  rewrite bool_decide_eq_true_2; [done|]. by exists m.
Qed.

Lemma Content_get_unowned db id u a :
  Content_get db id u = None → contents db !! id = Some a →
  content_owned db u a = false.
Proof.
  unfold Content_get, content_owned. intros H Ha. rewrite Ha in H.
  destruct (Module_get db (content_module a) u) as [m|]; [done|].
  rewrite bool_decide_eq_false_2; [done|]. by intros [? ?].
Qed.

(** What the module ordering view does with a batch whose keys are distinct. *)
Lemma ModuleOrderView_post_rows db u batch :
  let db' := (ModuleOrderView_post db u batch).1 in
  (∀ id order m, NoDup batch.*1 → (id, order) ∈ batch →
     Module_get db id u = Some m →
     modules db' !! id = Some (with_module_order order m)) ∧
  (∀ id, Module_get db id u = None → modules db' !! id = modules db !! id) ∧
  (∀ id, id ∉ batch.*1 → modules db' !! id = modules db !! id) ∧
  (∀ id order, NoDup batch.*1 → (id, order) ∈ batch →
     modules db' !! id = modules (Module_update_order u id order db) !! id) ∧
  (∀ batch', NoDup batch.*1 → batch ≡ₚ batch' →
     (ModuleOrderView_post db u batch').1 = db') ∧
  set_modules (modules db) db' = db.
Proof.
  intros db'. subst db'. rewrite ModuleOrderView_post_scoped. simpl.
  assert (∀ id, Module_get db id u = None →
            scoped_batch (module_owned (courses db) u) with_module_order
              (modules db) batch !! id = modules db !! id) as Hun.
  { intros id Hg. apply scoped_batch_unowned. intros a Ha.
    by eapply Module_get_unowned. }
  assert (∀ id order m, NoDup batch.*1 → (id, order) ∈ batch →
            Module_get db id u = Some m →
            scoped_batch (module_owned (courses db) u) with_module_order
              (modules db) batch !! id = Some (with_module_order order m)) as Hown.
  { intros id order m Hnd Hin Hg. apply Module_get_owned in Hg as [Hm Ho].
    by eapply scoped_batch_owned. }
  repeat split.
  - done.
  - done.
  - intros id Hid. by apply scoped_batch_notin.
  - intros id order Hnd Hin.
    destruct (Module_get db id u) as [m|] eqn:Hg.
    + rewrite (Hown id order m) by done.
      unfold Module_update_order. rewrite Hg; simpl. by rewrite lookup_insert_eq.
    + rewrite Hun by done. unfold Module_update_order. by rewrite Hg.
  - intros batch' Hnd Hp. rewrite (scoped_batch_perm _ _ batch batch') by done.
    exact (ModuleOrderView_post_scoped db u batch').
  - by destruct db.
Qed.

(** The same for the content ordering view. *)
Lemma ContentOrderView_post_rows db u batch :
  let db' := (ContentOrderView_post db u batch).1 in
  (∀ id order c, NoDup batch.*1 → (id, order) ∈ batch →
     Content_get db id u = Some c →
     contents db' !! id = Some (with_content_order order c)) ∧
  (∀ id, Content_get db id u = None → contents db' !! id = contents db !! id) ∧
  (∀ id, id ∉ batch.*1 → contents db' !! id = contents db !! id) ∧
  (∀ id order, NoDup batch.*1 → (id, order) ∈ batch →
     contents db' !! id = contents (Content_update_order u id order db) !! id) ∧
  (∀ batch', NoDup batch.*1 → batch ≡ₚ batch' →
     (ContentOrderView_post db u batch').1 = db') ∧
  set_contents (contents db) db' = db.
Proof.
  intros db'. subst db'. rewrite ContentOrderView_post_scoped. simpl.
  assert (∀ id, Content_get db id u = None →
            scoped_batch (content_owned db u) with_content_order
              (contents db) batch !! id = contents db !! id) as Hun.
  { intros id Hg. apply scoped_batch_unowned. intros a Ha.
    by eapply Content_get_unowned. }
  assert (∀ id order c, NoDup batch.*1 → (id, order) ∈ batch →
            Content_get db id u = Some c →
            scoped_batch (content_owned db u) with_content_order
              (contents db) batch !! id = Some (with_content_order order c)) as Hown.
  { intros id order c Hnd Hin Hg. apply Content_get_owned in Hg as [Hc Ho].
    by eapply scoped_batch_owned. }
  repeat split.
  - done.
  - done.
  - intros id Hid. by apply scoped_batch_notin.
  - intros id order Hnd Hin.
    destruct (Content_get db id u) as [c|] eqn:Hg.
    + rewrite (Hown id order c) by done.
      unfold Content_update_order. rewrite Hg; simpl. by rewrite lookup_insert_eq.
    + rewrite Hun by done. unfold Content_update_order. by rewrite Hg.
  - intros batch' Hnd Hp. rewrite (scoped_batch_perm _ _ batch batch') by done.
    exact (ContentOrderView_post_scoped db u batch').
  - by destruct db.
Qed.

(** ** The ordering endpoints *)

Lemma ModuleOrderView_post_last db u batch id order m :
  batch_order id batch = Some order → Module_get db id u = Some m →
  modules (ModuleOrderView_post db u batch).1 !! id =
    Some (with_module_order order m).
Proof.
  intros Hlast Hg. apply Module_get_owned in Hg as [Hm Ho].
  rewrite ModuleOrderView_post_scoped. simpl.
  rewrite (scoped_batch_last (module_owned (courses db) u) with_module_order
             (λ _ _, eq_refl) with_module_order_twice).
  rewrite Hm. simpl. by rewrite Ho, Hlast.
Qed.

Lemma ContentOrderView_post_last db u batch id order c :
  batch_order id batch = Some order → Content_get db id u = Some c →
  contents (ContentOrderView_post db u batch).1 !! id =
    Some (with_content_order order c).
Proof.
  intros Hlast Hg. apply Content_get_owned in Hg as [Hc Ho].
  rewrite ContentOrderView_post_scoped. simpl.
  rewrite (scoped_batch_last (content_owned db u) with_content_order
             (λ _ _, eq_refl) with_content_order_twice).
  rewrite Hc. simpl. by rewrite Ho, Hlast.
Qed.

(** C2: for a reorder batch sent to the module or the content ordering view,
    every id whose ownership chain matches the requester ends with its order
    field equal to the given new order and with its other fields as they
    were; this is stated for a batch whose ids are distinct (a JSON object)
    and, for any list of pairs, with the order of the last pair that names
    the id.  Every id whose chain does not match keeps its row as it was and
    the view still answers with its JSON acknowledgement.  The row of each
    pair is the one the pair's own scoped update gives on the initial store,
    the batch gives the same store in any order of its pairs, and no other
    table changes. *)
Theorem reorder_batch_scoped (db : DB) (u : Z) (batch : list (Z * Z)) :
  let dbm := (ModuleOrderView_post db u batch).1 in
  let dbc := (ContentOrderView_post db u batch).1 in
  ((∀ id order m, NoDup batch.*1 → (id, order) ∈ batch →
      Module_get db id u = Some m →
      ∃ m', modules dbm !! id = Some m' ∧ module_order m' = order ∧
            module_course m' = module_course m ∧
            module_title m' = module_title m ∧
            module_description m' = module_description m) ∧
   (∀ id order m, batch_order id batch = Some order →
      Module_get db id u = Some m →
      ∃ m', modules dbm !! id = Some m' ∧ module_order m' = order ∧
            module_course m' = module_course m ∧
            module_title m' = module_title m ∧
            module_description m' = module_description m) ∧
   (∀ id, Module_get db id u = None → modules dbm !! id = modules db !! id) ∧
   (∀ id, id ∉ batch.*1 → modules dbm !! id = modules db !! id) ∧
   (∀ id order, NoDup batch.*1 → (id, order) ∈ batch →
      modules dbm !! id = modules (Module_update_order u id order db) !! id) ∧
   (∀ batch', NoDup batch.*1 → batch ≡ₚ batch' →
      (ModuleOrderView_post db u batch').1 = dbm) ∧
   set_modules (modules db) dbm = db ∧
   (∃ payload, (ModuleOrderView_post db u batch).2 = JsonResponse payload)) ∧
  ((∀ id order c, NoDup batch.*1 → (id, order) ∈ batch →
      Content_get db id u = Some c →
      ∃ c', contents dbc !! id = Some c' ∧ content_order c' = order ∧
            content_module c' = content_module c ∧
            content_type c' = content_type c ∧
            content_object_id c' = content_object_id c) ∧
   (∀ id order c, batch_order id batch = Some order →
      Content_get db id u = Some c →
      ∃ c', contents dbc !! id = Some c' ∧ content_order c' = order ∧
            content_module c' = content_module c ∧
            content_type c' = content_type c ∧
            content_object_id c' = content_object_id c) ∧
   (∀ id, Content_get db id u = None → contents dbc !! id = contents db !! id) ∧
   (∀ id, id ∉ batch.*1 → contents dbc !! id = contents db !! id) ∧
   (∀ id order, NoDup batch.*1 → (id, order) ∈ batch →
      contents dbc !! id = contents (Content_update_order u id order db) !! id) ∧
   (∀ batch', NoDup batch.*1 → batch ≡ₚ batch' →
      (ContentOrderView_post db u batch').1 = dbc) ∧
   set_contents (contents db) dbc = db ∧
   (∃ payload, (ContentOrderView_post db u batch).2 = JsonResponse payload)).
Proof.
  intros dbm dbc.
  destruct (ModuleOrderView_post_rows db u batch) as (_ & M2 & M3 & M4 & M5 & M6).
  destruct (ContentOrderView_post_rows db u batch) as (_ & C2 & C3 & C4 & C5 & C6).
  assert (∀ id order m, batch_order id batch = Some order →
            Module_get db id u = Some m →
            ∃ m', modules dbm !! id = Some m' ∧ module_order m' = order ∧
                  module_course m' = module_course m ∧
                  module_title m' = module_title m ∧
                  module_description m' = module_description m) as Mlast.
  { intros id order m Hlast Hg. exists (with_module_order order m).
    split; [by apply ModuleOrderView_post_last|done]. }
  assert (∀ id order c, batch_order id batch = Some order →
            Content_get db id u = Some c →
            ∃ c', contents dbc !! id = Some c' ∧ content_order c' = order ∧
                  content_module c' = content_module c ∧
                  content_type c' = content_type c ∧
                  content_object_id c' = content_object_id c) as Clast.
  { intros id order c Hlast Hg. exists (with_content_order order c).
    split; [by apply ContentOrderView_post_last|done]. }
  split.
  - split; [|split; [|split; [|split; [|split; [|split; [|split]]]]]];
      try done; [|by eexists].
    intros id order m Hnd Hin. apply Mlast. by apply batch_order_NoDup.
  - split; [|split; [|split; [|split; [|split; [|split; [|split]]]]]];
      try done; [|by eexists].
    intros id order c Hnd Hin. apply Clast. by apply batch_order_NoDup.
Qed.

(** The scenario of the spec: the batch {"5": 3, "6": 1} from the owner of
    module 5, module 6 being someone else's; the same for Content rows 1 and
    2; and a batch that names module 5 twice. *)
Lemma reorder_batch_scoped_witness :
  (let db' := (ModuleOrderView_post db0 10 [(5, 3); (6, 1)]).1 in
   modules db' !! 5 = Some (module_of 1 3) ∧
   modules db' !! 6 = Some (module_of 2 0)) ∧
  (let db' := (ContentOrderView_post db0 10 [(1, 4); (2, 9)]).1 in
   contents db' !! 1 =
     Some {| content_module := 5; content_type := Text;
             content_object_id := 1; content_order := 4 |} ∧
   contents db' !! 2 = contents db0 !! 2) ∧
  (∃ m', modules (ModuleOrderView_post db0 10 [(5, 3); (5, 8)]).1 !! 5 = Some m' ∧
         module_order m' = 8).
Proof.
  assert (NoDup ([(5, 3); (6, 1)] : list (Z * Z)).*1) as Hnd.
  { apply (bool_decide_unpack _). vm_compute. exact I. }
  assert (NoDup ([(1, 4); (2, 9)] : list (Z * Z)).*1) as Hnd'.
  { apply (bool_decide_unpack _). vm_compute. exact I. }
  split; [|split].
  - destruct (reorder_batch_scoped db0 10 [(5, 3); (6, 1)]) as [(H1 & _ & H3 & _) _].
    split.
    + destruct (H1 5 3 (module_of 1 0) Hnd) as (m' & Hm' & Ho & Hc & Ht & Hd).
      * apply (bool_decide_unpack _). vm_compute. exact I.
      * reflexivity.
      * rewrite Hm'. destruct m'. simpl in *. by subst.
    + rewrite (H3 6); reflexivity.
  - destruct (reorder_batch_scoped db0 10 [(1, 4); (2, 9)]) as [_ (H1 & _ & H3 & _)].
    split.
    + destruct (H1 1 4 {| content_module := 5; content_type := Text;
                          content_object_id := 1; content_order := 0 |} Hnd')
        as (c' & Hc' & Ho & Hm & Ht & Hi).
      * apply (bool_decide_unpack _). vm_compute. exact I.
      * reflexivity.
      * rewrite Hc'. destruct c'. simpl in *. by subst.
    + apply (H3 2). reflexivity.
  - destruct (reorder_batch_scoped db0 10 [(5, 3); (5, 8)]) as [(_ & H2 & _) _].
    destruct (H2 5 8 (module_of 1 0)) as (m' & Hm' & Ho & _); [reflexivity..|].
    by exists m'.
Defined.

(** C3: the module ordering view answers every batch with {"saved": "OK"};
    the content ordering view answers every batch with {"saved": "Ok"}, a
    payload of its own that differs from the module view's. *)
Theorem order_views_payload (db : DB) (u : Z) (batch : list (Z * Z)) :
  (ModuleOrderView_post db u batch).2 = JsonResponse [("saved", JStr "OK")] ∧
  (ContentOrderView_post db u batch).2 = JsonResponse [("saved", JStr "Ok")] ∧
  (ContentOrderView_post db u batch).2 ≠ JsonResponse [("saved", JStr "OK")].
Proof. repeat split. discriminate. Qed.

(** ** The owner-scoped course views *)

Lemma OwnerMixin_get_queryset_lookup db u pk :
  get_object (OwnerMixin_get_queryset db u) pk =
  match courses db !! pk with
  | Some c => if decide (course_owner c = user_id u) then Some c else None
  | None => None
  end.
Proof.
  unfold get_object, OwnerMixin_get_queryset.
  destruct (courses db !! pk) as [c|] eqn:Hc.
  - destruct (decide (course_owner c = user_id u)) as [Ho|Ho].
    + by apply map_lookup_filter_Some.
    + apply map_lookup_filter_None. right. intros c' Hc'. simpl. congruence.
  - apply map_lookup_filter_None. by left.
Qed.

(** C1, as amended: for a course C and an authenticated principal U that is
    not C's owner, an update or delete request on C yields not-found, with
    the store unchanged, when U holds the permission of the action; when U
    does not hold it the permission gate, which runs before the owner's
    queryset is consulted, refuses the request. *)
Theorem non_owner_edit_not_found (db : DB) (u : User) (method : Method)
    (pk : Z) (form : CourseForm) (c : CourseRow) :
  is_authenticated u = true →
  courses db !! pk = Some c →
  course_owner c ≠ user_id u →
  (has_perm u "courses.change_course" = true →
     CourseUpdateView db u method pk form = (db, Http404)) ∧
  (has_perm u "courses.delete_course" = true →
     CourseDeleteView db u method pk = (db, Http404)) ∧
  (has_perm u "courses.change_course" = false →
     CourseUpdateView db u method pk form = (db, PermissionDenied)) ∧
  (has_perm u "courses.delete_course" = false →
     CourseDeleteView db u method pk = (db, PermissionDenied)).
Proof.
  intros Hauth Hc Hne.
  unfold CourseUpdateView, CourseDeleteView.
  rewrite Hauth, OwnerMixin_get_queryset_lookup, Hc; simpl.
  rewrite decide_False by done.
  repeat split; intros ->; done.
Qed.

Lemma non_owner_edit_not_found_witness :
  CourseUpdateView db0 bob POST 1
    {| cf_subject := 1; cf_title := "x"; cf_slug := "x"; cf_overview := "";
       cf_is_valid := true |} = (db0, Http404) ∧
  CourseDeleteView db0 bob POST 1 = (db0, Http404).
Proof.
  destruct (non_owner_edit_not_found db0 bob POST 1
              {| cf_subject := 1; cf_title := "x"; cf_slug := "x";
                 cf_overview := ""; cf_is_valid := true |}
              (course_of 10 "algebra")) as (H1 & H2 & _).
  - reflexivity.
  - reflexivity.
  - vm_compute. discriminate.
  - split; [apply H1 | apply H2]; reflexivity.
Defined.

(** C1 as stated fails: an authenticated principal that is not the owner and
    was not granted the permission of the action gets the permission error. *)
Lemma non_owner_edit_permission_error :
  ¬ (∀ (db : DB) (u : User) (method : Method) (pk : Z) (form : CourseForm)
       (c : CourseRow),
       is_authenticated u = true → courses db !! pk = Some c →
       course_owner c ≠ user_id u →
       (CourseUpdateView db u method pk form).2 = Http404 ∧
       (CourseDeleteView db u method pk).2 = Http404).
Proof.
  intros H.
  destruct (H db0 carol POST 1
              {| cf_subject := 1; cf_title := "x"; cf_slug := "x";
                 cf_overview := ""; cf_is_valid := true |}
              (course_of 10 "algebra")) as [H1 _].
  - reflexivity.
  - reflexivity.
  - vm_compute. discriminate.
  - vm_compute in H1. discriminate.
Qed.

(** ** Enrolment *)

Lemma students_add_idem course user db :
  students_add course user (students_add course user db) =
  students_add course user db.
Proof.
  unfold students_add.
  destruct (decide ((course, user) ∈ students db)) as [Hin|Hin].
  - by rewrite decide_True.
  - simpl. rewrite decide_True; [done|]. apply elem_of_app. right. by left.
Qed.

Lemma students_add_elem course user db :
  (course, user) ∈ students (students_add course user db).
Proof.
  unfold students_add.
  destruct (decide ((course, user) ∈ students db)) as [Hin|Hin]; [done|].
  simpl. apply elem_of_app. right. by left.
Qed.

Lemma CourseViewSet_get_object_lookup db u pk :
  CourseViewSet_get_object db u pk =
  match courses db !! pk with Some c => inr c | None => inl Http404 end.
Proof.
  unfold CourseViewSet_get_object; simpl.
  destruct (courses db !! pk) as [c|] eqn:Hc.
  - by rewrite (map_lookup_filter_Some_2 _ _ _ _ Hc).
  - rewrite (proj2 (map_lookup_filter_None _ _ _)); [done|]. by left.
Qed.

(** The two enrolment entry points are the same function of the store, the
    user and the primary key. *)
Lemma enroll_entry_points_agree db u pk :
  CourseViewSet_enroll db u pk = CourseEnrollView_post db u pk.
Proof.
  unfold CourseViewSet_enroll, CourseEnrollView_post.
  rewrite CourseViewSet_get_object_lookup.
  by destruct (courses db !! pk).
Qed.

Lemma CourseEnrollView_post_twice db u pk c :
  is_authenticated u = true → courses db !! pk = Some c →
  let r1 := CourseEnrollView_post db u pk in
  let r2 := CourseEnrollView_post r1.1 u pk in
  r1.2 = JsonResponse [("enrolled", JBool true)] ∧
  r2.2 = JsonResponse [("enrolled", JBool true)] ∧
  r2.1 = r1.1.
Proof.
  intros Hauth Hc. unfold CourseEnrollView_post, IsAuthenticated_has_permission.
  rewrite Hauth, Hc; simpl.
  assert (courses (students_add pk (user_id u) db) !! pk = Some c) as ->.
  { unfold students_add. by destruct (decide _). }
  simpl. by rewrite students_add_idem.
Qed.

(** C7: for an authenticated user and an existing course, at either entry
    point, enrolling a second time answers {"enrolled": true} like the first
    time and leaves the store as the first call left it: the course's student
    set has the same members and the same size, and the user is one of
    them. *)
Theorem enroll_idempotent (db : DB) (u : User) (pk : Z) (c : CourseRow)
    (enroll : DB → User → Z → DB * HttpResponse) :
  enroll = CourseEnrollView_post ∨ enroll = CourseViewSet_enroll →
  is_authenticated u = true →
  courses db !! pk = Some c →
  let once := enroll db u pk in
  let twice := enroll once.1 u pk in
  once.2 = JsonResponse [("enrolled", JBool true)] ∧
  twice.2 = JsonResponse [("enrolled", JBool true)] ∧
  twice.1 = once.1 ∧
  Course_students twice.1 pk = Course_students once.1 pk ∧
  length (Course_students twice.1 pk) = length (Course_students once.1 pk) ∧
  user_id u ∈ Course_students once.1 pk.
Proof.
  intros Hen Hauth Hc once twice.
  assert (once = CourseEnrollView_post db u pk ∧
          twice = CourseEnrollView_post once.1 u pk) as [Ho Ht].
  { subst once twice.
    destruct Hen as [->| ->]; [done|]. by rewrite !enroll_entry_points_agree. }
  destruct (CourseEnrollView_post_twice db u pk c Hauth Hc) as (H1 & H2 & H3).
  rewrite Ht, Ho. rewrite H3. repeat split; try done.
  unfold CourseEnrollView_post, IsAuthenticated_has_permission.
  rewrite Hauth, Hc; simpl.
  apply list_elem_of_omap. exists (pk, user_id u). split.
  - apply students_add_elem.
  - simpl. by rewrite decide_True.
Qed.

Lemma enroll_idempotent_witness :
  let once := CourseViewSet_enroll db0 bob 1 in
  let twice := CourseViewSet_enroll once.1 bob 1 in
  twice.1 = once.1 ∧ Course_students twice.1 1 = [20].
Proof.
  destruct (enroll_idempotent db0 bob 1 (course_of 10 "algebra")
              CourseViewSet_enroll) as (_ & _ & H3 & H4 & _).
  - by right.
  - reflexivity.
  - reflexivity.
  - split; [exact H3|]. simpl in H4. rewrite H4. reflexivity.
Defined.

(** C9: the standalone enrol endpoint and the viewset's enrol action give the
    same store and the same response on every request; for an authenticated
    user that is {"enrolled": true} with the user in the course's student set
    when the course exists, and not-found with the store unchanged when it
    does not. *)
Theorem enroll_entry_points_equivalent (db : DB) (u : User) (pk : Z) :
  CourseEnrollView_post db u pk = CourseViewSet_enroll db u pk ∧
  (is_authenticated u = true →
   (is_Some (courses db !! pk) →
      CourseViewSet_enroll db u pk =
        (students_add pk (user_id u) db, JsonResponse [("enrolled", JBool true)]) ∧
      user_id u ∈ Course_students (CourseViewSet_enroll db u pk).1 pk) ∧
   (courses db !! pk = None → CourseViewSet_enroll db u pk = (db, Http404))).
Proof.
  split; [by rewrite enroll_entry_points_agree|].
  intros Hauth. rewrite enroll_entry_points_agree.
  unfold CourseEnrollView_post, IsAuthenticated_has_permission.
  rewrite Hauth; simpl. split.
  - intros [c ->]; simpl. split; [done|].
    apply list_elem_of_omap. exists (pk, user_id u). split.
    + apply students_add_elem.
    + simpl. by rewrite decide_True.
  - by intros ->.
Qed.

Lemma enroll_entry_points_equivalent_witness :
  CourseViewSet_enroll db0 bob 1 =
    (set_students [(1, 20)] db0, JsonResponse [("enrolled", JBool true)]) ∧
  CourseViewSet_enroll db0 bob 9 = (db0, Http404).
Proof.
  split.
  - destruct (enroll_entry_points_equivalent db0 bob 1) as [_ H].
    destruct (H eq_refl) as [H1 _].
    destruct H1 as [H1 _]; [by eexists|]. exact H1.
  - destruct (enroll_entry_points_equivalent db0 bob 9) as [_ H].
    destruct (H eq_refl) as [_ H2]. apply H2. reflexivity.
Defined.

(** ** The content item editor *)

Lemma get_model_unknown name :
  name ∉ ["text"; "file"; "image"; "video"] → get_model name = None.
Proof. intros H. unfold get_model. by rewrite bool_decide_eq_false_2. Qed.

Lemma max_pk_ge (k : Z) (ks : list Z) : k ∈ ks → (k ≤ max_pk ks)%Z.
Proof.
  induction ks as [|x ks IH]; intros Hk; [by apply elem_of_nil in Hk|].
  simpl. apply elem_of_cons in Hk as [->|Hk]; [lia|].
  specialize (IH Hk). lia.
Qed.

Lemma next_pk_fresh {A} (t : gmap Z A) : t !! next_pk t = None.
Proof.
  destruct (t !! next_pk t) as [a|] eqn:Ha; [|done].
  assert (next_pk t ∈ (map_to_list t).*1) as Hin.
  { apply list_elem_of_fmap. exists (next_pk t, a). split; [done|].
    by apply elem_of_map_to_list. }
  apply max_pk_ge in Hin. unfold next_pk in Hin. lia.
Qed.

Lemma next_item_pk_fresh t model : t !! (model, next_item_pk t model) = None.
Proof.
  destruct (t !! (model, next_item_pk t model)) as [a|] eqn:Ha; [|done].
  assert (next_item_pk t model ∈ item_pks t model) as Hin.
  { apply list_elem_of_omap. exists ((model, next_item_pk t model), a). split.
    - by apply elem_of_map_to_list.
    - simpl. by rewrite decide_True. }
  apply max_pk_ge in Hin. unfold next_item_pk in Hin. lia.
Qed.

(** The dispatch of the content editor, case by case. *)
Lemma ContentCreateUpdateView_dispatch_inr db u module_id name id r :
  ContentCreateUpdateView_dispatch db u module_id name id = inr r →
  is_Some (Module_get db module_id u) ∧
  r = (module_id, get_model name, if truthy id then id else None) ∧
  (truthy id = true →
     ∃ md i it, get_model name = Some md ∧ id = Some i ∧
                Item_get db md i u = Some it).
Proof.
  unfold ContentCreateUpdateView_dispatch.
  destruct (Module_get db module_id u) as [m|]; [|done].
  destruct (truthy id) eqn:Ht.
  - destruct (get_model name) as [md|]; [|done].
    destruct (Item_get db md (default 0 id) u) as [it|] eqn:Hit; [|done].
    intros [= <-]. split; [by eexists|]. split; [done|]. intros _.
    destruct id as [i|]; [|done]. by exists md, i, it.
  - intros [= <-]. split; [by eexists|]. split; [done|]. done.
Qed.


(** C4, as amended: each of the four type names resolves to the model of
    that name, and a request with such a name writes item rows of that model
    only and creates content rows of that type only; a type name outside the
    whitelist resolves to no model, and the request then leaves the store
    unchanged and ends in not-found when the module is not the requester's
    and in an unhandled exception otherwise. *)
Theorem content_type_resolution :
  (get_model "text" = Some Text ∧ get_model "file" = Some File ∧
   get_model "image" = Some Image ∧ get_model "video" = Some Video) ∧
  (∀ db u method module_id name id data md,
     get_model name = Some md →
     let db' := (ContentCreateUpdateView db u method module_id name id data).1 in
     (∀ k, k.1 ≠ md → items db' !! k = items db !! k) ∧
     (∀ ck c, contents db' !! ck = Some c →
        contents db !! ck = Some c ∨ content_type c = md)) ∧
  (∀ db u method module_id name id data,
     name ∉ ["text"; "file"; "image"; "video"] →
     get_model name = None ∧
     ContentCreateUpdateView db u method module_id name id data =
       (db, match Module_get db module_id u with
            | None => Http404
            | Some _ =>
                ServerError (if truthy id then "ValueError" else "AttributeError")
            end)).
Proof.
  split; [by repeat split|]. split.
  - intros db u method module_id name id data md Hmd db'. subst db'.
    unfold ContentCreateUpdateView.
    destruct (ContentCreateUpdateView_dispatch db u module_id name id)
      as [resp|[[m model] obj]] eqn:Hd; [by split; auto|].
    apply ContentCreateUpdateView_dispatch_inr in Hd as (_ & [= -> -> ->] & _).
    rewrite Hmd. destruct method; [by split; auto|].
    destruct (if_is_valid data); [|by split; auto].
    simpl. split.
    + intros k Hk. destruct (truthy id); simpl;
        (apply lookup_insert_ne; intros Heq; apply Hk; by rewrite <- Heq).
    + intros ck c. destruct (truthy id); simpl; [by left|].
      destruct (decide (ck = next_pk (contents db))) as [->|Hne].
      * rewrite lookup_insert_eq. intros [= <-]. by right.
      * rewrite lookup_insert_ne by done. by left.
  - intros db u method module_id name id data Hname.
    pose proof (get_model_unknown name Hname) as Hnone. split; [done|].
    unfold ContentCreateUpdateView, ContentCreateUpdateView_dispatch.
    rewrite Hnone.
    destruct (Module_get db module_id u); [|done].
    by destruct (truthy id).
Qed.

Lemma content_type_resolution_witness :
  ContentCreateUpdateView db0 10 GET 5 "audio" None
    {| if_data := []; if_is_valid := true |} = (db0, ServerError "AttributeError").
Proof.
  destruct content_type_resolution as (_ & _ & H).
  destruct (H db0 10 GET 5 "audio" None {| if_data := []; if_is_valid := true |})
    as [_ H2].
  - apply (bool_decide_unpack _). vm_compute. exact I.
  - exact H2.
Defined.

(** C4 as stated fails: an unknown type name on a module of the requester
    ends in an unhandled exception, not in not-found. *)
Lemma unknown_type_not_404 :
  ¬ (∀ (db : DB) (u : Z) (method : Method) (module_id : Z) (name : string)
       (id : option Z) (data : ItemForm),
       name ∉ ["text"; "file"; "image"; "video"] →
       (ContentCreateUpdateView db u method module_id name id data).2 = Http404).
Proof.
  intros H.
  specialize (H db0 10 GET 5 "audio" None {| if_data := []; if_is_valid := true |}).
  assert ("audio" ∉ ["text"; "file"; "image"; "video"]) as Hn.
  { apply (bool_decide_unpack _). vm_compute. exact I. }
  specialize (H Hn). vm_compute in H. discriminate.
Qed.




(** C10: when [id] is supplied the content item editor leaves the Content
    table, the modules, the courses and the enrolments as they were, whatever
    module the URL names and whatever the outcome; the item table is either
    unchanged or differs at the edited item alone, which then carries the
    submitted fields and the requester as owner. *)
Theorem content_update_keeps_linkage (db : DB) (u : Z) (method : Method)
    (module_id : Z) (name : string) (id : option Z) (data : ItemForm) :
  truthy id = true →
  let db' := (ContentCreateUpdateView db u method module_id name id data).1 in
  contents db' = contents db ∧
  modules db' = modules db ∧
  courses db' = courses db ∧
  students db' = students db ∧
  (items db' = items db ∨
   ∃ md i it, get_model name = Some md ∧ id = Some i ∧
     Item_get db md i u = Some it ∧
     items db' =
       <[(md, i) := {| item_owner := u; item_data := if_data data |}]> (items db)).
Proof.
  intros Ht db'. subst db'. unfold ContentCreateUpdateView.
  destruct (ContentCreateUpdateView_dispatch db u module_id name id)
    as [resp|[[m model] obj]] eqn:Hd; [by repeat split; auto|].
  apply ContentCreateUpdateView_dispatch_inr in Hd as (_ & [= -> -> ->] & Hid).
  destruct (Hid Ht) as (md & i & it & Hmd & -> & Hit).
  rewrite Hmd, Ht. destruct method; [by repeat split; auto|].
  destruct (if_is_valid data); [|by repeat split; auto].
  simpl. repeat split; try done.
  right. by exists md, i, it.
Qed.

(** Alice edits text 1, which content 1 links to module 5, through the URL
    of her other module 7: the edit succeeds and content 1 still links the
    text to module 5. *)
Lemma content_update_keeps_linkage_witness :
  let r := ContentCreateUpdateView db0 10 POST 7 "text" (Some 1)
             {| if_data := [("title", "notes")]; if_is_valid := true |} in
  r.2 = Redirect "module_content_list" [7] ∧
  contents r.1 !! 1 =
    Some {| content_module := 5; content_type := Text;
            content_object_id := 1; content_order := 0 |}.
Proof.
  intros r. split; [reflexivity|].
  destruct (content_update_keeps_linkage db0 10 POST 7 "text" (Some 1)
              {| if_data := [("title", "notes")]; if_is_valid := true |})
    as (Hc & _); [reflexivity|].
  subst r. rewrite Hc. reflexivity.
Defined.

(** ** Content deletion *)

(** C6, as amended: for a Content row of the requester whose item exists,
    the deletion view removes the item and the Content row, the item first,
    and redirects to the module's content list; nothing else changes.  The
    two deletions are separate statements: after the first one the item is
    gone while the Content row is still there. *)
Theorem content_delete_removes_pair (db : DB) (u id : Z) (c : ContentRow)
    (it : ItemRow) :
  Content_get db id u = Some c →
  items db !! (content_type c, content_object_id c) = Some it →
  let key := (content_type c, content_object_id c) in
  let db1 := set_items (delete key (items db)) db in
  let db2 := set_contents (delete id (contents db)) db1 in
  ContentDeleteView_post db u id =
    (db2, Redirect "module_content_list" [content_module c]) ∧
  ContentDeleteView_trace db u id = [db; db1; db2] ∧
  items db2 !! key = None ∧
  contents db2 !! id = None ∧
  (items db1 !! key = None ∧ contents db1 !! id = Some c) ∧
  (∀ k, k ≠ key → items db2 !! k = items db !! k) ∧
  (∀ k, k ≠ id → contents db2 !! k = contents db !! k) ∧
  modules db2 = modules db ∧ courses db2 = courses db ∧
  students db2 = students db.
Proof.
  intros Hc Hit key db1 db2.
  unfold ContentDeleteView_post, ContentDeleteView_trace.
  rewrite Hc, Hit. subst db2 db1 key. simpl.
  repeat split; try done.
  - apply lookup_delete_eq.
  - apply lookup_delete_eq.
  - apply lookup_delete_eq.
  - unfold Content_get in Hc. destruct (contents db !! id) as [c'|]; [|done].
    destruct (Module_get db (content_module c') u); [|done]. congruence.
  - intros k Hk. by apply lookup_delete_ne.
  - intros k Hk. by apply lookup_delete_ne.
Qed.

(** Alice deletes content 1, which wraps text 1. *)
Lemma content_delete_removes_pair_witness :
  let db' := (ContentDeleteView_post db0 10 1).1 in
  items db' !! (Text, 1) = None ∧ contents db' !! 1 = None ∧
  (ContentDeleteView_post db0 10 1).2 = Redirect "module_content_list" [5].
Proof.
  destruct (content_delete_removes_pair db0 10 1
              {| content_module := 5; content_type := Text;
                 content_object_id := 1; content_order := 0 |}
              {| item_owner := 10; item_data := [("title", "intro")] |})
    as (Hpost & _ & Hi & Hc & _); [reflexivity..|].
  simpl. rewrite Hpost. simpl. split; [exact Hi|]. split; [exact Hc|]. reflexivity.
Defined.

(** C6 as stated fails: the run of the view passes through a store in which
    the item is deleted and the Content row is not, so the removal of the
    pair is not atomic. *)
Lemma content_delete_not_atomic :
  ¬ (∀ (db : DB) (u id : Z) (c : ContentRow),
       Content_get db id u = Some c →
       let db' := (ContentDeleteView_post db u id).1 in
       items db' !! (content_type c, content_object_id c) = None ∧
       contents db' !! id = None ∧
       atomic_trace (ContentDeleteView_trace db u id)).
Proof.
  intros H.
  destruct (H db0 10 1 {| content_module := 5; content_type := Text;
                          content_object_id := 1; content_order := 0 |})
    as (_ & _ & Hat); [reflexivity|].
  destruct (Hat (set_items (delete (Text, 1) (items db0)) db0)) as [Hd|Hd].
  - right. left.
  - pose proof (f_equal (fmap (λ d : DB, items d !! (Text, 1))) Hd) as Hd'.
    vm_compute in Hd'. discriminate.
  - pose proof (f_equal (fmap (λ d : DB, contents d !! 1)) Hd) as Hd'.
    vm_compute in Hd'. discriminate.
Qed.

(** ** The module formset *)

Lemma ModuleFormSet_is_valid_true rows :
  ModuleFormSet_is_valid rows = true ↔ ∀ r, r ∈ rows → row_is_valid r = true.
Proof.
  unfold ModuleFormSet_is_valid. induction rows as [|x rows IH]; simpl.
  - split; [|done]. intros _ r Hr. by apply elem_of_nil in Hr.
  - rewrite andb_true_iff, IH. split.
    + intros [Hx Hall] r [->|Hr]%elem_of_cons; auto.
    + intros Hall. split; [apply Hall; by left|].
      intros r Hr. apply Hall. by right.
Qed.

Lemma ModuleFormSet_is_valid_false rows :
  ModuleFormSet_is_valid rows = false ↔ ∃ r, r ∈ rows ∧ row_is_valid r = false.
Proof.
  unfold ModuleFormSet_is_valid. induction rows as [|x rows IH]; simpl.
  - split; [done|]. intros (r & Hr & _). by apply elem_of_nil in Hr.
  - rewrite andb_false_iff, IH. split.
    + intros [Hx|(r & Hr & Hv)].
      * exists x. split; [by left|done].
      * exists r. split; [by right|done].
    + intros (r & [->|Hr]%elem_of_cons & Hv); [by left|].
      right. by exists r.
Qed.

Lemma ModuleFormSet_save_row_other course db r i :
  row_id r ≠ Some i → is_Some (modules db !! i) →
  modules (ModuleFormSet_save_row course db r) !! i = modules db !! i.
Proof.
  intros Hne Hi. unfold ModuleFormSet_save_row.
  destruct (row_id r) as [j|].
  - assert (j ≠ i) by congruence.
    destruct (modules db !! j) as [m|]; [|done].
    destruct (decide (module_course m = course)); [|done].
    destruct (row_DELETE r); simpl.
    + by apply lookup_delete_ne.
    + by apply lookup_insert_ne.
  - destruct (row_DELETE r); [done|]. simpl.
    apply lookup_insert_ne. intros Heq. rewrite <- Heq in Hi.
    rewrite next_pk_fresh in Hi. by destruct Hi.
Qed.

Lemma ModuleFormSet_save_frame course rows db :
  let db' := ModuleFormSet_save course rows db in
  courses db' = courses db ∧ contents db' = contents db ∧
  items db' = items db ∧ students db' = students db.
Proof.
  unfold ModuleFormSet_save. revert db.
  induction rows as [|r rows IH]; intros db; simpl; [done|].
  destruct (IH (ModuleFormSet_save_row course db r)) as (-> & -> & -> & ->).
  unfold ModuleFormSet_save_row.
  destruct (row_id r) as [j|].
  - destruct (modules db !! j) as [m|]; [|done].
    destruct (decide (module_course m = course)); [|done].
    by destruct (row_DELETE r).
  - by destruct (row_DELETE r).
Qed.

Lemma ModuleFormSet_save_update course row i rows : ∀ db m,
  row_id row = Some i → row_DELETE row = false →
  modules db !! i = Some m → module_course m = course →
  (∀ r, r ∈ rows → row_id r = Some i → r = row) →
  row ∈ rows ∨ row_over row m = m →
  modules (ModuleFormSet_save course rows db) !! i = Some (row_over row m).
Proof.
  unfold ModuleFormSet_save.
  induction rows as [|r rows IH]; intros db m Hid Hdel Hm Hc Huniq Hin; simpl.
  { destruct Hin as [Hin|Hin]; [by apply elem_of_nil in Hin|]. by rewrite Hin. }
  destruct (decide (row_id r = Some i)) as [Hr|Hr].
  - assert (r = row) as -> by (apply Huniq; [by left|done]).
    assert (modules (ModuleFormSet_save_row course db row) !! i
            = Some (row_over row m)) as Hstep.
    { unfold ModuleFormSet_save_row. rewrite Hid, Hm, Hdel.
      rewrite decide_True by done. simpl. apply lookup_insert_eq. }
    rewrite (IH _ (row_over row m)); try done.
    + intros r Hin'. apply Huniq. by right.
    + by right.
  - assert (modules (ModuleFormSet_save_row course db r) !! i = Some m) as Hstep.
    { rewrite ModuleFormSet_save_row_other; [done|done|by eexists]. }
    apply IH; try done.
    + intros r' Hin'. apply Huniq. by right.
    + destruct Hin as [[->|Hin]%elem_of_cons|Hin]; [congruence|by left|by right].
Qed.

Lemma ModuleFormSet_save_keeps_none course i rows : ∀ db,
  modules db !! i = None →
  (∀ r, r ∈ rows → is_Some (row_id r) ∨ row_DELETE r = true) →
  modules (ModuleFormSet_save course rows db) !! i = None.
Proof.
  unfold ModuleFormSet_save.
  induction rows as [|r rows IH]; intros db Hi Hnew; simpl; [done|].
  apply IH; [|intros r' Hr'; apply Hnew; by right].
  unfold ModuleFormSet_save_row.
  destruct (Hnew r) as [[j Hj]|Hd]; [by left| |].
  - rewrite Hj. destruct (modules db !! j) as [m|] eqn:Hm; [|done].
    destruct (decide (module_course m = course)); [|done].
    assert (j ≠ i) by congruence.
    destruct (row_DELETE r); simpl.
    + by rewrite lookup_delete_ne.
    + by rewrite lookup_insert_ne.
  - rewrite Hd. destruct (row_id r) as [j|]; [|done].
    destruct (modules db !! j) as [m|] eqn:Hm; [|done].
    destruct (decide (module_course m = course)); [|done].
    simpl. destruct (decide (j = i)) as [->|]; [apply lookup_delete_eq|].
    by rewrite lookup_delete_ne.
Qed.

Lemma ModuleFormSet_save_delete course row i rows : ∀ db,
  row ∈ rows → row_id row = Some i → row_DELETE row = true →
  (∀ m, modules db !! i = Some m → module_course m = course) →
  (∀ r, r ∈ rows → is_Some (row_id r) ∨ row_DELETE r = true) →
  modules (ModuleFormSet_save course rows db) !! i = None.
Proof.
  induction rows as [|r rows IH]; intros db Hin Hid Hdel Hc Hnew.
  { by apply elem_of_nil in Hin. }
  assert (∀ r', r' ∈ rows → is_Some (row_id r') ∨ row_DELETE r' = true) as Hnew'.
  { intros r' Hr'. apply Hnew. by right. }
  apply elem_of_cons in Hin as [<-|Hin].
  - change (modules (ModuleFormSet_save course rows
                       (ModuleFormSet_save_row course db row)) !! i = None).
    apply ModuleFormSet_save_keeps_none; [|done].
    unfold ModuleFormSet_save_row. rewrite Hid, Hdel.
    destruct (modules db !! i) as [m|] eqn:Hm; [|done].
    rewrite decide_True by (by apply Hc). simpl. apply lookup_delete_eq.
  - change (modules (ModuleFormSet_save course rows
                       (ModuleFormSet_save_row course db r)) !! i = None).
    apply IH; try done.
    intros m. unfold ModuleFormSet_save_row.
    destruct (Hnew r) as [[j Hj]|Hd]; [by left| |].
    + rewrite Hj. destruct (modules db !! j) as [mj|] eqn:Hm; [|apply Hc].
      destruct (decide (module_course mj = course)) as [Hcj|]; [|apply Hc].
      destruct (row_DELETE r); simpl.
      * destruct (decide (j = i)) as [->|].
        -- by rewrite lookup_delete_eq.
        -- rewrite lookup_delete_ne by done. apply Hc.
      * destruct (decide (j = i)) as [->|].
        -- rewrite lookup_insert_eq. by intros [= <-].
        -- rewrite lookup_insert_ne by done. apply Hc.
    + rewrite Hd. destruct (row_id r) as [j|]; [|apply Hc].
      destruct (modules db !! j) as [mj|] eqn:Hm; [|apply Hc].
      destruct (decide (module_course mj = course)) as [Hcj|]; [|apply Hc].
      simpl. destruct (decide (j = i)) as [->|].
      * by rewrite lookup_delete_eq.
      * rewrite lookup_delete_ne by done. apply Hc.
Qed.

Lemma ModuleFormSet_save_create course rows : ∀ db,
  (∀ r, r ∈ rows → row_id r = None ∧ row_DELETE r = false) →
  size (modules (ModuleFormSet_save course rows db)) =
  (size (modules db) + length rows)%nat.
Proof.
  unfold ModuleFormSet_save.
  induction rows as [|r rows IH]; intros db Hnew; simpl; [lia|].
  rewrite IH by (intros r' Hr'; apply Hnew; by right).
  destruct (Hnew r) as [Hid Hdel]; [by left|].
  unfold ModuleFormSet_save_row. rewrite Hid, Hdel. simpl.
  rewrite map_size_insert_None by apply next_pk_fresh. lia.
Qed.

(** C8: for a submission to the module set editor of a course of the
    requester, if any row is invalid the store is unchanged and the bound
    formset is rendered again with its errors; when every row is valid all
    rows are saved and the view redirects to the course list: a row of an
    existing module of the course that is the only row for it stores its two
    fields, a row marked for deletion removes its module (in a submission
    without extra rows), extra rows each add a module, and no other table
    changes. *)
Theorem module_formset_all_or_nothing (db : DB) (u pk : Z)
    (data : list ModuleFormRow) (c : CourseRow) :
  Course_get db pk u = Some c →
  let r := CourseModuleUpdateView db u POST pk data in
  ((∃ row, row ∈ data ∧ row_is_valid row = false) →
     r = (db, TemplateResponse "courses/manage/module/formset.html"
                [("formset", CtxFormset data true)])) ∧
  ((∀ row, row ∈ data → row_is_valid row = true) →
     r = (ModuleFormSet_save pk data db, Redirect "manage_course_list" []) ∧
     (∀ row i m, row ∈ data → row_id row = Some i → row_DELETE row = false →
        modules db !! i = Some m → module_course m = pk →
        (∀ row', row' ∈ data → row_id row' = Some i → row' = row) →
        modules r.1 !! i = Some (row_over row m)) ∧
     (∀ row i m, row ∈ data → row_id row = Some i → row_DELETE row = true →
        modules db !! i = Some m → module_course m = pk →
        (∀ row', row' ∈ data → is_Some (row_id row') ∨ row_DELETE row' = true) →
        modules r.1 !! i = None) ∧
     ((∀ row, row ∈ data → row_id row = None ∧ row_DELETE row = false) →
        size (modules r.1) = (size (modules db) + length data)%nat) ∧
     courses r.1 = courses db ∧ contents r.1 = contents db ∧
     items r.1 = items db ∧ students r.1 = students db).
Proof.
  intros Hc r. subst r. unfold CourseModuleUpdateView. rewrite Hc. split.
  - intros Hbad. apply ModuleFormSet_is_valid_false in Hbad. by rewrite Hbad.
  - intros Hall. apply ModuleFormSet_is_valid_true in Hall. rewrite Hall. simpl.
    split; [done|]. split; [|split; [|split]].
    + intros row i m Hin Hid Hdel Hm Hcm Huniq.
      apply ModuleFormSet_save_update; auto.
    + intros row i m Hin Hid Hdel Hm Hcm Hnew.
      apply (ModuleFormSet_save_delete pk row); auto.
      intros m'. rewrite Hm. by intros [= <-].
    + apply ModuleFormSet_save_create.
    + apply ModuleFormSet_save_frame.
Qed.

(** Alice submits the formset of course 1: with an invalid second row nothing
    is stored; with both rows valid module 5 is renamed and module 7 is
    removed. *)
Lemma module_formset_all_or_nothing_witness :
  let r5 valid := {| row_id := Some 5; row_title := "sets";
                     row_description := "basics"; row_DELETE := false;
                     row_is_valid := valid |} in
  let r7 valid := {| row_id := Some 7; row_title := "m"; row_description := "";
                     row_DELETE := true; row_is_valid := valid |} in
  (CourseModuleUpdateView db0 10 POST 1 [r5 true; r7 false]).1 = db0 ∧
  modules (CourseModuleUpdateView db0 10 POST 1 [r5 true; r7 true]).1 !! 5 =
    Some {| module_course := 1; module_title := "sets";
            module_description := "basics"; module_order := 0 |}.
Proof.
  intros r5 r7. split.
  - destruct (module_formset_all_or_nothing db0 10 1 [r5 true; r7 false]
                (course_of 10 "algebra")) as [Hbad _]; [reflexivity|].
    rewrite Hbad; [reflexivity|].
    exists (r7 false). split; [|reflexivity]. right. left.
  - destruct (module_formset_all_or_nothing db0 10 1 [r5 true; r7 true]
                (course_of 10 "algebra")) as [_ Hok]; [reflexivity|].
    destruct Hok as (_ & Hupd & _).
    { intros row [->|[->|Hin]%elem_of_cons]%elem_of_cons; try reflexivity.
      by apply elem_of_nil in Hin. }
    apply (Hupd (r5 true) 5 (module_of 1 0)); try reflexivity.
    + left.
    + intros row' [->|[->|Hin]%elem_of_cons]%elem_of_cons; try done.
      by apply elem_of_nil in Hin.
Defined.

(** ** Further properties of the owner-scoped course views *)

(** X1: An anonymous request is sent to the login page by each of the four course
    management views, whatever permissions and ids it carries, and nothing is
    written. *)
Theorem course_views_anonymous (db : DB) (u : User) (method : Method) (pk : Z)
    (form : CourseForm) :
  is_authenticated u = false →
  CourseUpdateView db u method pk form = (db, RedirectToLogin) ∧
  CourseDeleteView db u method pk = (db, RedirectToLogin) ∧
  CourseCreateView db u method form = (db, RedirectToLogin) ∧
  ManageCourseListView_get db u = inl RedirectToLogin.
Proof.
  intros Ha.
  unfold CourseUpdateView, CourseDeleteView, CourseCreateView,
    ManageCourseListView_get.
  by rewrite Ha.
Qed.

Lemma course_views_anonymous_witness :
  CourseDeleteView db0
    {| user_id := 10; is_authenticated := false;
       user_perms := ["courses.delete_course"] |} POST 1 = (db0, RedirectToLogin).
Proof.
  destruct (course_views_anonymous db0
              {| user_id := 10; is_authenticated := false;
                 user_perms := ["courses.delete_course"] |} POST 1
              {| cf_subject := 1; cf_title := "x"; cf_slug := "x";
                 cf_overview := ""; cf_is_valid := true |})
    as (_ & H & _); [reflexivity|exact H].
Defined.

(** X2: Owning a course does not replace the permission of the action: a
    logged-in user without it is refused by each view, the owner included,
    and nothing is written. *)
Theorem course_views_permission_required (db : DB) (u : User) (method : Method)
    (pk : Z) (form : CourseForm) :
  is_authenticated u = true →
  (has_perm u "courses.change_course" = false →
     CourseUpdateView db u method pk form = (db, PermissionDenied)) ∧
  (has_perm u "courses.delete_course" = false →
     CourseDeleteView db u method pk = (db, PermissionDenied)) ∧
  (has_perm u "courses.add_course" = false →
     CourseCreateView db u method form = (db, PermissionDenied)) ∧
  (has_perm u "courses.view_course" = false →
     ManageCourseListView_get db u = inl PermissionDenied).
Proof.
  intros Ha.
  unfold CourseUpdateView, CourseDeleteView, CourseCreateView,
    ManageCourseListView_get.
  rewrite Ha. simpl. repeat split; by intros ->.
Qed.

(** The owner of course 1, allowed to change courses but not to delete them. *)
Lemma course_views_permission_required_witness :
  CourseDeleteView db0
    {| user_id := 10; is_authenticated := true;
       user_perms := ["courses.change_course"] |} POST 1 = (db0, PermissionDenied).
Proof.
  destruct (course_views_permission_required db0
              {| user_id := 10; is_authenticated := true;
                 user_perms := ["courses.change_course"] |} POST 1
              {| cf_subject := 1; cf_title := "x"; cf_slug := "x";
                 cf_overview := ""; cf_is_valid := true |})
    as (_ & H & _); [reflexivity|]. apply H. reflexivity.
Defined.

(** X3: Whatever the request, the update view creates and deletes no course,
    leaves every course with the owner it had, writes no course other than
    the one of the URL, and touches no other table. *)
Theorem course_update_frame (db : DB) (u : User) (method : Method) (pk : Z)
    (form : CourseForm) :
  let db' := (CourseUpdateView db u method pk form).1 in
  dom (courses db') = dom (courses db) ∧
  (∀ k c', courses db' !! k = Some c' →
     ∃ c, courses db !! k = Some c ∧ course_owner c' = course_owner c) ∧
  (∀ k, k ≠ pk → courses db' !! k = courses db !! k) ∧
  modules db' = modules db ∧ contents db' = contents db ∧
  items db' = items db ∧ students db' = students db.
Proof.
  intros db'. subst db'. unfold CourseUpdateView.
  assert (∀ k c', courses db !! k = Some c' →
            ∃ c, courses db !! k = Some c ∧ course_owner c' = course_owner c)
    as Hsame by (intros k c' ->; by eexists).
  destruct (negb (is_authenticated u)); [done|].
  destruct (negb (has_perm u "courses.change_course")); [done|].
  rewrite OwnerMixin_get_queryset_lookup.
  destruct (courses db !! pk) as [c|] eqn:Hc; [|done].
  destruct (decide (course_owner c = user_id u)) as [Ho|]; [|done].
  destruct method; [done|].
  destruct (cf_is_valid form); [|done].
  simpl. repeat split; try done.
  - apply dom_insert_lookup_L. by exists c.
  - intros k c'. destruct (decide (k = pk)) as [->|Hne].
    + rewrite lookup_insert_eq. intros [= <-]. by exists c.
    + rewrite lookup_insert_ne by done. apply Hsame.
  - intros k Hne. by rewrite lookup_insert_ne.
Qed.

(** X4: What the update view stores for the owner: the submitted fields, with
    the requester as owner, under the key of the URL. *)
Theorem course_update_by_owner (db : DB) (u : User) (pk : Z) (form : CourseForm)
    (c : CourseRow) :
  is_authenticated u = true →
  has_perm u "courses.change_course" = true →
  courses db !! pk = Some c → course_owner c = user_id u →
  (cf_is_valid form = true →
     CourseUpdateView db u POST pk form =
       (set_courses (<[pk := CourseForm_instance (user_id u) form]> (courses db)) db,
        Redirect "manage_course_list" []) ∧
     get_object (OwnerMixin_get_queryset (CourseUpdateView db u POST pk form).1 u) pk
       = Some (CourseForm_instance (user_id u) form)) ∧
  (cf_is_valid form = false →
     ∃ ctx, CourseUpdateView db u POST pk form =
              (db, TemplateResponse "courses/manage/course/form.html" ctx)) ∧
  (∃ ctx, CourseUpdateView db u GET pk form =
            (db, TemplateResponse "courses/manage/course/form.html" ctx)).
Proof.
  intros Ha Hp Hc Ho. unfold CourseUpdateView.
  rewrite Ha, Hp, OwnerMixin_get_queryset_lookup, Hc. simpl.
  rewrite decide_True by done. split; [|split].
  - intros ->. split; [done|].
    simpl. rewrite OwnerMixin_get_queryset_lookup. simpl.
    rewrite lookup_insert_eq. simpl. by rewrite decide_True.
  - intros ->. by eexists.
  - by eexists.
Qed.

Lemma course_update_by_owner_witness :
  let form := {| cf_subject := 2; cf_title := "linear algebra";
                 cf_slug := "linear-algebra"; cf_overview := "vectors";
                 cf_is_valid := true |} in
  courses (CourseUpdateView db0 alice POST 1 form).1 !! 1 =
    Some {| course_owner := 10; course_subject := 2;
            course_title := "linear algebra"; course_slug := "linear-algebra";
            course_overview := "vectors" |}.
Proof.
  intros form.
  destruct (course_update_by_owner db0 alice 1 form (course_of 10 "algebra"))
    as (H & _); [reflexivity..|].
  destruct (H eq_refl) as [Heq _]. rewrite Heq. reflexivity.
Defined.

Lemma OwnerMixin_get_queryset_eq db db' v :
  (∀ k, get_object (OwnerMixin_get_queryset db' v) k =
        get_object (OwnerMixin_get_queryset db v) k) →
  OwnerMixin_get_queryset db' v = OwnerMixin_get_queryset db v.
Proof. intros H. apply map_eq. exact H. Qed.

(** X5: Isolation: no request of one user to the update, delete or create view
    changes the course list of another user. *)
Theorem course_views_isolated (db : DB) (u v : User) (method : Method) (pk : Z)
    (form : CourseForm) :
  user_id v ≠ user_id u →
  OwnerMixin_get_queryset (CourseUpdateView db u method pk form).1 v =
    OwnerMixin_get_queryset db v ∧
  OwnerMixin_get_queryset (CourseDeleteView db u method pk).1 v =
    OwnerMixin_get_queryset db v ∧
  OwnerMixin_get_queryset (CourseCreateView db u method form).1 v =
    OwnerMixin_get_queryset db v.
Proof.
  intros Hne. repeat split.
  - unfold CourseUpdateView.
    destruct (negb (is_authenticated u)); [done|].
    destruct (negb (has_perm u "courses.change_course")); [done|].
    rewrite OwnerMixin_get_queryset_lookup.
    destruct (courses db !! pk) as [c|] eqn:Hc; [|done].
    destruct (decide (course_owner c = user_id u)) as [Ho|]; [|done].
    destruct method; [done|]. destruct (cf_is_valid form); [|done].
    apply OwnerMixin_get_queryset_eq. intros k.
    rewrite !OwnerMixin_get_queryset_lookup. simpl.
    destruct (decide (k = pk)) as [->|Hk].
    + rewrite lookup_insert_eq, Hc. simpl.
      rewrite !decide_False; [done|congruence|congruence].
    + by rewrite lookup_insert_ne.
  - unfold CourseDeleteView.
    destruct (negb (is_authenticated u)); [done|].
    destruct (negb (has_perm u "courses.delete_course")); [done|].
    rewrite OwnerMixin_get_queryset_lookup.
    destruct (courses db !! pk) as [c|] eqn:Hc; [|done].
    destruct (decide (course_owner c = user_id u)) as [Ho|]; [|done].
    destruct method; [done|].
    apply OwnerMixin_get_queryset_eq. intros k.
    rewrite !OwnerMixin_get_queryset_lookup. simpl.
    destruct (decide (k = pk)) as [->|Hk].
    + rewrite lookup_delete_eq, Hc. rewrite decide_False; [done|congruence].
    + by rewrite lookup_delete_ne.
  - unfold CourseCreateView.
    destruct (negb (is_authenticated u)); [done|].
    destruct (negb (has_perm u "courses.add_course")); [done|].
    destruct method; [done|]. destruct (cf_is_valid form); [|done].
    apply OwnerMixin_get_queryset_eq. intros k.
    rewrite !OwnerMixin_get_queryset_lookup. simpl.
    destruct (decide (k = next_pk (courses db))) as [->|Hk].
    + rewrite lookup_insert_eq, next_pk_fresh. simpl.
      rewrite decide_False; [done|congruence].
    + by rewrite lookup_insert_ne.
Qed.

Lemma course_views_isolated_witness :
  OwnerMixin_get_queryset (CourseDeleteView db0 alice POST 1).1 bob =
    OwnerMixin_get_queryset db0 bob.
Proof.
  destruct (course_views_isolated db0 alice bob POST 1
              {| cf_subject := 1; cf_title := "x"; cf_slug := "x";
                 cf_overview := ""; cf_is_valid := true |})
    as (_ & H & _); [vm_compute; discriminate|exact H].
Defined.

(** X6: Once its owner has deleted a course, the course is in nobody's queryset:
    a second delete, or an update, answers not-found; the other courses are
    as they were. *)
Theorem course_delete_then_not_found (db : DB) (u : User) (pk : Z) (c : CourseRow) :
  is_authenticated u = true →
  has_perm u "courses.delete_course" = true →
  courses db !! pk = Some c → course_owner c = user_id u →
  let r := CourseDeleteView db u POST pk in
  r.2 = Redirect "manage_course_list" [] ∧
  (∀ v, get_object (OwnerMixin_get_queryset r.1 v) pk = None) ∧
  CourseDeleteView r.1 u POST pk = (r.1, Http404) ∧
  (∀ method form, has_perm u "courses.change_course" = true →
     CourseUpdateView r.1 u method pk form = (r.1, Http404)) ∧
  (∀ k, k ≠ pk → courses r.1 !! k = courses db !! k) ∧
  (CourseDeleteView db u GET pk).1 = db.
Proof.
  intros Ha Hp Hc Ho r.
  assert (r = (Course_delete pk db, Redirect "manage_course_list" [])) as ->.
  { subst r. unfold CourseDeleteView.
    rewrite Ha, Hp, OwnerMixin_get_queryset_lookup, Hc. simpl.
    by rewrite decide_True. }
  simpl.
  assert (∀ v, get_object (OwnerMixin_get_queryset (Course_delete pk db) v) pk
               = None) as Hgone.
  { intros v. rewrite OwnerMixin_get_queryset_lookup. simpl.
    by rewrite lookup_delete_eq. }
  split; [done|]. split; [done|]. split; [|split; [|split]].
  - unfold CourseDeleteView. by rewrite Ha, Hp, Hgone.
  - intros method form Hch. unfold CourseUpdateView. by rewrite Ha, Hch, Hgone.
  - intros k Hk. by apply lookup_delete_ne.
  - unfold CourseDeleteView.
    rewrite Ha, Hp, OwnerMixin_get_queryset_lookup, Hc. simpl.
    by rewrite decide_True.
Qed.

Lemma course_delete_then_not_found_witness :
  CourseDeleteView (CourseDeleteView db0 alice POST 1).1 alice POST 1 =
    ((CourseDeleteView db0 alice POST 1).1, Http404).
Proof.
  destruct (course_delete_then_not_found db0 alice 1 (course_of 10 "algebra"))
    as (_ & _ & H & _); [reflexivity..|exact H].
Defined.

(** X7: A created course gets a key no course had, belongs to its creator, is in
    the creator's list at once and can be opened in the update view; the
    courses that were there are untouched. *)
Theorem course_create_owned (db : DB) (u : User) (form : CourseForm) :
  is_authenticated u = true →
  has_perm u "courses.add_course" = true →
  cf_is_valid form = true →
  let r := CourseCreateView db u POST form in
  let pk := next_pk (courses db) in
  r.2 = Redirect "manage_course_list" [] ∧
  courses db !! pk = None ∧
  get_object (OwnerMixin_get_queryset r.1 u) pk =
    Some (CourseForm_instance (user_id u) form) ∧
  (∀ k c, courses db !! k = Some c → courses r.1 !! k = Some c) ∧
  size (courses r.1) = S (size (courses db)) ∧
  (has_perm u "courses.change_course" = true →
     ∃ ctx, CourseUpdateView r.1 u GET pk form =
              (r.1, TemplateResponse "courses/manage/course/form.html" ctx)) ∧
  modules r.1 = modules db ∧ contents r.1 = contents db ∧
  items r.1 = items db ∧ students r.1 = students db.
Proof.
  intros Ha Hp Hv r pk. subst r pk. unfold CourseCreateView.
  rewrite Ha, Hp, Hv. simpl.
  pose proof (next_pk_fresh (courses db)) as Hfresh.
  assert (get_object
            (OwnerMixin_get_queryset
               (set_courses
                  (<[next_pk (courses db) := CourseForm_instance (user_id u) form]>
                     (courses db)) db) u) (next_pk (courses db))
          = Some (CourseForm_instance (user_id u) form)) as Hget.
  { rewrite OwnerMixin_get_queryset_lookup. simpl.
    rewrite lookup_insert_eq. simpl. by rewrite decide_True. }
  split; [done|]. split; [done|]. split; [done|]. split; [|split; [|split]].
  - intros k c Hk. rewrite lookup_insert_ne; [done|]. congruence.
  - by apply map_size_insert_None.
  - intros Hch. unfold CourseUpdateView. rewrite Ha, Hch, Hget. simpl.
    by eexists.
  - done.
Qed.

Lemma course_create_owned_witness :
  let form := {| cf_subject := 3; cf_title := "chemistry"; cf_slug := "chemistry";
                 cf_overview := ""; cf_is_valid := true |} in
  courses (CourseCreateView db0 bob POST form).1 !! 3 =
    Some (CourseForm_instance 20 form) ∧
  size (courses (CourseCreateView db0 bob POST form).1) = 3%nat.
Proof.
  intros form.
  destruct (course_create_owned db0 bob form)
    as (_ & _ & Hget & _ & Hsize & _); [reflexivity..|].
  split; [|rewrite Hsize; reflexivity].
  rewrite OwnerMixin_get_queryset_lookup in Hget.
  change (next_pk (courses db0)) with 3 in Hget.
  destruct (courses (CourseCreateView db0 bob POST form).1 !! 3) as [c|]; [|done].
  destruct (decide (course_owner c = user_id bob)); [exact Hget|done].
Defined.

(** X8: The list view shows exactly the requester's courses, and these are
    exactly the courses the update view opens for the requester. *)
Theorem course_list_matches_update (db : DB) (u : User) (pk : Z)
    (form : CourseForm) :
  is_authenticated u = true →
  has_perm u "courses.view_course" = true →
  has_perm u "courses.change_course" = true →
  ∃ qs, ManageCourseListView_get db u = inr ("courses/manage/course/list.html", qs) ∧
    (∀ k c, qs !! k = Some c ↔ courses db !! k = Some c ∧ course_owner c = user_id u) ∧
    (is_Some (qs !! pk) ↔ (CourseUpdateView db u GET pk form).2 ≠ Http404).
Proof.
  intros Ha Hv Hc. exists (OwnerMixin_get_queryset db u).
  unfold ManageCourseListView_get, CourseUpdateView. rewrite Ha, Hv, Hc. simpl.
  split; [done|]. split.
  - intros k c. unfold OwnerMixin_get_queryset.
    by rewrite map_lookup_filter_Some.
  - unfold get_object.
    destruct (OwnerMixin_get_queryset db u !! pk) as [c|]; simpl.
    + split; [done|]. intros _. by eexists.
    + split; [by intros [? ?]|]. intros H. by destruct H.
Qed.

Lemma course_list_matches_update_witness :
  ∃ qs, ManageCourseListView_get db0 alice =
          inr ("courses/manage/course/list.html", qs) ∧
        is_Some (qs !! 1) ∧ qs !! 2 = None.
Proof.
  destruct (course_list_matches_update db0 alice 1
              {| cf_subject := 1; cf_title := "x"; cf_slug := "x";
                 cf_overview := ""; cf_is_valid := true |})
    as (qs & Hl & Hrows & Hupd); [reflexivity..|].
  exists qs. split; [exact Hl|]. split.
  - apply Hupd. vm_compute. discriminate.
  - destruct (qs !! 2) as [c|] eqn:H2; [|reflexivity].
    apply Hrows in H2 as [H2 Ho]. vm_compute in H2.
    injection H2 as <-. vm_compute in Ho. discriminate.
Defined.

(** ** Further properties of the module and content editors *)

(** X9: The module set editor writes only for the owner of the course, on POST,
    with a valid formset; a course that is missing or someone else's is
    not-found for either method, whatever is submitted. *)
Theorem module_formset_guards (db : DB) (u pk : Z) (method : Method)
    (data : list ModuleFormRow) :
  (Course_get db pk u = None →
     CourseModuleUpdateView db u method pk data = (db, Http404)) ∧
  (Course_get db pk u = None ∨ method = GET ∨ ModuleFormSet_is_valid data = false →
     (CourseModuleUpdateView db u method pk data).1 = db) ∧
  (∀ c, courses db !! pk = Some c → course_owner c ≠ u →
     CourseModuleUpdateView db u method pk data = (db, Http404)).
Proof.
  unfold CourseModuleUpdateView. split; [|split].
  - by intros ->.
  - intros [->|[->| ->]]; [done| |].
    + by destruct (Course_get db pk u).
    + destruct (Course_get db pk u); [|done]. by destruct method.
  - intros c Hc Hne. unfold Course_get. rewrite Hc.
    by rewrite decide_False.
Qed.

(** Bob submits a valid formset for Alice's course 1. *)
Lemma module_formset_guards_witness :
  CourseModuleUpdateView db0 20 POST 1
    [{| row_id := Some 5; row_title := "mine"; row_description := "";
        row_DELETE := false; row_is_valid := true |}] = (db0, Http404).
Proof.
  destruct (module_formset_guards db0 20 1 POST
              [{| row_id := Some 5; row_title := "mine"; row_description := "";
                  row_DELETE := false; row_is_valid := true |}]) as (_ & _ & H).
  apply (H (course_of 10 "algebra")); [reflexivity|vm_compute; discriminate].
Defined.

(** X10: The content item editor is not-found, with nothing written, when the
    module of the URL is not the requester's, and also when an id is given
    and the item of that id and type is missing or owned by someone else. *)
Theorem content_editor_owner_only (db : DB) (u : Z) (method : Method)
    (module_id : Z) (name : string) (id : option Z) (data : ItemForm) :
  (Module_get db module_id u = None →
     ContentCreateUpdateView db u method module_id name id data = (db, Http404)) ∧
  (∀ md i, is_Some (Module_get db module_id u) → get_model name = Some md →
     id = Some i → i ≠ 0 → Item_get db md i u = None →
     ContentCreateUpdateView db u method module_id name id data = (db, Http404)).
Proof.
  unfold ContentCreateUpdateView, ContentCreateUpdateView_dispatch. split.
  - by intros ->.
  - intros md i [m ->] -> -> Hi Hit. simpl.
    replace (i =? 0)%Z with false by (symmetry; by apply Z.eqb_neq).
    simpl. by rewrite Hit.
Qed.

(** Alice tries to edit Bob's video 1 through her own module 5. *)
Lemma content_editor_owner_only_witness :
  ContentCreateUpdateView db0 10 POST 5 "video" (Some 1)
    {| if_data := [("title", "mine")]; if_is_valid := true |} = (db0, Http404).
Proof.
  destruct (content_editor_owner_only db0 10 POST 5 "video" (Some 1)
              {| if_data := [("title", "mine")]; if_is_valid := true |})
    as [_ H].
  apply (H Video 1); try reflexivity.
  - by eexists.
  - discriminate.
Defined.

(** X11: The content item editor writes only on a POST whose form is valid: a GET
    and a POST with an invalid form leave the store as it was. *)
Theorem content_editor_writes_on_valid_post (db : DB) (u : Z) (method : Method)
    (module_id : Z) (name : string) (id : option Z) (data : ItemForm) :
  method = GET ∨ if_is_valid data = false →
  (ContentCreateUpdateView db u method module_id name id data).1 = db.
Proof.
  intros H. unfold ContentCreateUpdateView.
  destruct (ContentCreateUpdateView_dispatch db u module_id name id)
    as [resp|[[m model] obj]]; [done|].
  destruct model as [md|]; [|done].
  destruct H as [->| ->]; [done|]. by destruct method.
Qed.

Lemma content_editor_writes_on_valid_post_witness :
  (ContentCreateUpdateView db0 10 POST 5 "text" None
     {| if_data := []; if_is_valid := false |}).1 = db0.
Proof.
  apply (content_editor_writes_on_valid_post db0 10 POST 5 "text" None
           {| if_data := []; if_is_valid := false |}).
  right. reflexivity.
Defined.

Lemma max_pk_nonneg (ks : list Z) : (0 ≤ max_pk ks)%Z.
Proof. induction ks as [|k ks IH]; simpl; lia. Qed.

Lemma Module_get_frame db db' :
  modules db' = modules db → courses db' = courses db →
  ∀ pk u, Module_get db' pk u = Module_get db pk u.
Proof. intros Hm Hc pk u. unfold Module_get. by rewrite Hm, Hc. Qed.

(** The successful creation of an item, written out: the store after it and
    the keys it used. *)
Lemma ContentCreateUpdateView_create db u module_id name md data :
  is_Some (Module_get db module_id u) → get_model name = Some md →
  if_is_valid data = true →
  ContentCreateUpdateView db u POST module_id name None data =
    (Content_create module_id md (next_item_pk (items db) md)
       (set_items (<[(md, next_item_pk (items db) md) :=
                       {| item_owner := u; item_data := if_data data |}]> (items db))
          db),
     Redirect "module_content_list" [module_id]).
Proof.
  intros [m Hm] Hmd Hv.
  unfold ContentCreateUpdateView, ContentCreateUpdateView_dispatch.
  rewrite Hm, Hmd. simpl. by rewrite Hv.
Qed.

(** X12: Create, then edit: the item a requester has just created has a non-zero
    id under which the same requester can edit it at once, and the edit adds
    no Content row. *)
Theorem content_create_then_edit (db : DB) (u module_id : Z) (name : string)
    (md : ItemModel) (data data' : ItemForm) :
  is_Some (Module_get db module_id u) → get_model name = Some md →
  if_is_valid data = true → if_is_valid data' = true →
  let created := ContentCreateUpdateView db u POST module_id name None data in
  let pk := next_item_pk (items db) md in
  let edited :=
    ContentCreateUpdateView created.1 u POST module_id name (Some pk) data' in
  pk ≠ 0 ∧
  edited.2 = Redirect "module_content_list" [module_id] ∧
  items edited.1 !! (md, pk) =
    Some {| item_owner := u; item_data := if_data data' |} ∧
  contents edited.1 = contents created.1 ∧
  size (contents edited.1) = S (size (contents db)).
Proof.
  intros Hm Hmd Hv Hv' created pk edited.
  assert (pk ≠ 0) as Hpk.
  { subst pk. unfold next_item_pk.
    pose proof (max_pk_nonneg (item_pks (items db) md)). lia. }
  subst edited created.
  rewrite (ContentCreateUpdateView_create db u module_id name md data) by done.
  simpl. fold pk.
  destruct Hm as [m Hm].
  unfold ContentCreateUpdateView, ContentCreateUpdateView_dispatch.
  rewrite (Module_get_frame db) by done. rewrite Hm, Hmd. simpl.
  replace (pk =? 0)%Z with false by (symmetry; by apply Z.eqb_neq).
  simpl. unfold Item_get. simpl. rewrite lookup_insert_eq. simpl.
  rewrite decide_True by done. rewrite Hv'. simpl.
  split; [done|]. split; [done|]. split; [apply lookup_insert_eq|].
  split; [done|].
  apply map_size_insert_None, next_pk_fresh.
Qed.

Lemma content_create_then_edit_witness :
  let form := {| if_data := [("title", "draft")]; if_is_valid := true |} in
  let form' := {| if_data := [("title", "final")]; if_is_valid := true |} in
  items (ContentCreateUpdateView
           (ContentCreateUpdateView db0 10 POST 5 "text" None form).1
           10 POST 5 "text" (Some 2) form').1 !! (Text, 2) =
    Some {| item_owner := 10; item_data := [("title", "final")] |}.
Proof.
  intros form form'.
  destruct (content_create_then_edit db0 10 5 "text" Text form form')
    as (_ & _ & H & _); [by eexists|reflexivity..|].
  exact H.
Defined.

(** X13: Create, then delete: deleting the Content row a requester has just
    created gives back exactly the store from before the creation, and
    redirects to the list of the module it was created in. *)
Theorem content_create_then_delete (db : DB) (u module_id : Z) (name : string)
    (md : ItemModel) (data : ItemForm) :
  is_Some (Module_get db module_id u) → get_model name = Some md →
  if_is_valid data = true →
  let created := ContentCreateUpdateView db u POST module_id name None data in
  ContentDeleteView_post created.1 u (next_pk (contents db)) =
    (db, Redirect "module_content_list" [module_id]).
Proof.
  intros Hm Hmd Hv created. subst created.
  rewrite (ContentCreateUpdateView_create db u module_id name md data) by done.
  destruct Hm as [m Hm].
  unfold ContentDeleteView_post, Content_get. simpl.
  rewrite lookup_insert_eq. simpl.
  rewrite (Module_get_frame db) by done. rewrite Hm.
  simpl. rewrite lookup_insert_eq. simpl. f_equal.
  apply DB_eq; simpl; try done.
  - apply delete_insert_id, next_pk_fresh.
  - apply delete_insert_id, next_item_pk_fresh.
Qed.

Lemma content_create_then_delete_witness :
  ContentDeleteView_post
    (ContentCreateUpdateView db0 10 POST 7 "image" None
       {| if_data := [("title", "chart")]; if_is_valid := true |}).1 10 3 =
    (db0, Redirect "module_content_list" [7]).
Proof.
  apply (content_create_then_delete db0 10 7 "image" Image
           {| if_data := [("title", "chart")]; if_is_valid := true |});
    [by eexists|reflexivity..].
Defined.

Lemma ContentDeleteView_post_not_found db u id :
  Content_get db id u = None → ContentDeleteView_post db u id = (db, Http404).
Proof. unfold ContentDeleteView_post. by intros ->. Qed.

Lemma ContentDeleteView_post_no_item db u id c :
  Content_get db id u = Some c →
  items db !! (content_type c, content_object_id c) = None →
  ContentDeleteView_post db u id = (db, ServerError "AttributeError") ∧
  contents db !! id = Some c.
Proof.
  intros Hc Hit. unfold ContentDeleteView_post. rewrite Hc, Hit. split; [done|].
  unfold Content_get in Hc. destruct (contents db !! id) as [c'|]; [|done].
  destruct (Module_get db (content_module c') u); [|done]. congruence.
Qed.

(** X14: The deletion view removes nothing unless the Content row is the
    requester's and its item exists: a row that is missing or someone else's
    is not-found, and a row whose item is missing makes the view raise;
    in both cases the store is as it was. *)
Theorem content_delete_guards (db : DB) (u id : Z) :
  (Content_get db id u = None →
     ContentDeleteView_post db u id = (db, Http404)) ∧
  (∀ c, contents db !! id = Some c → Module_get db (content_module c) u = None →
     ContentDeleteView_post db u id = (db, Http404)) ∧
  (∀ c, Content_get db id u = Some c →
     items db !! (content_type c, content_object_id c) = None →
     ContentDeleteView_post db u id = (db, ServerError "AttributeError") ∧
     contents db !! id = Some c).
Proof.
  split; [|split].
  - apply ContentDeleteView_post_not_found.
  - intros c Hc Hm. apply ContentDeleteView_post_not_found.
    unfold Content_get. by rewrite Hc, Hm.
  - apply ContentDeleteView_post_no_item.
Qed.

(** Bob tries to delete Alice's content 1. *)
Lemma content_delete_guards_witness :
  ContentDeleteView_post db0 20 1 = (db0, Http404).
Proof.
  destruct (content_delete_guards db0 20 1) as (_ & H & _).
  apply (H {| content_module := 5; content_type := Text;
              content_object_id := 1; content_order := 0 |}); reflexivity.
Defined.

(** X15: A deletion that stopped after its first statement cannot be completed
    through the view: in the store it leaves, the same request raises and the
    Content row stays. *)
Theorem content_delete_half_done (db : DB) (u id : Z) (c : ContentRow) (it : ItemRow) :
  Content_get db id u = Some c →
  items db !! (content_type c, content_object_id c) = Some it →
  ∃ half, ContentDeleteView_trace db u id !! 1%nat = Some half ∧
    ContentDeleteView_post half u id = (half, ServerError "AttributeError") ∧
    contents half !! id = Some c.
Proof.
  intros Hc Hit.
  exists (set_items (delete (content_type c, content_object_id c) (items db)) db).
  unfold ContentDeleteView_trace. rewrite Hc, Hit. simpl. split; [done|].
  assert (Content_get
            (set_items (delete (content_type c, content_object_id c) (items db)) db)
            id u = Some c) as Hc' by exact Hc.
  apply (ContentDeleteView_post_no_item _ u id c Hc'). simpl.
  apply lookup_delete_eq.
Qed.

Lemma content_delete_half_done_witness :
  ContentDeleteView_post (set_items (delete (Text, 1) (items db0)) db0) 10 1 =
    (set_items (delete (Text, 1) (items db0)) db0, ServerError "AttributeError").
Proof.
  destruct (content_delete_half_done db0 10 1
              {| content_module := 5; content_type := Text;
                 content_object_id := 1; content_order := 0 |}
              {| item_owner := 10; item_data := [("title", "intro")] |})
    as (half & Hh & Hp & _); [reflexivity..|].
  injection Hh as <-. exact Hp.
Defined.

(** X16: Delete twice: after a successful deletion the same request is not-found
    and changes nothing. *)
Theorem content_delete_twice (db : DB) (u id : Z) (c : ContentRow) (it : ItemRow) :
  Content_get db id u = Some c →
  items db !! (content_type c, content_object_id c) = Some it →
  let once := ContentDeleteView_post db u id in
  ContentDeleteView_post once.1 u id = (once.1, Http404).
Proof.
  intros Hc Hit once.
  assert (once.1 = set_contents (delete id (contents db))
                     (set_items (delete (content_type c, content_object_id c)
                                   (items db)) db)) as ->.
  { subst once. unfold ContentDeleteView_post. by rewrite Hc, Hit. }
  apply ContentDeleteView_post_not_found. unfold Content_get. simpl.
  by rewrite lookup_delete_eq.
Qed.

Lemma content_delete_twice_witness :
  ContentDeleteView_post (ContentDeleteView_post db0 10 1).1 10 1 =
    ((ContentDeleteView_post db0 10 1).1, Http404).
Proof.
  apply (content_delete_twice db0 10 1
           {| content_module := 5; content_type := Text;
              content_object_id := 1; content_order := 0 |}
           {| item_owner := 10; item_data := [("title", "intro")] |});
    reflexivity.
Defined.



(** ** Further properties of the ordering views *)

(** X18: A batch that names no row of the requester, the empty batch included,
    leaves the store exactly as it was, and gets the usual acknowledgement. *)
Theorem reorder_foreign_batch_noop (db : DB) (u : Z) (batch : list (Z * Z)) :
  ((∀ id, id ∈ batch.*1 → Module_get db id u = None) →
     ModuleOrderView_post db u batch = (db, JsonResponse [("saved", JStr "OK")])) ∧
  ((∀ id, id ∈ batch.*1 → Content_get db id u = None) →
     ContentOrderView_post db u batch = (db, JsonResponse [("saved", JStr "Ok")])).
Proof.
  unfold ModuleOrderView_post, ContentOrderView_post. split.
  - intros H. f_equal. induction batch as [|[i o] rest IH]; simpl; [done|].
    unfold Module_update_order at 2. rewrite (H i) by (simpl; by left).
    apply IH. intros id Hid. apply H. simpl. by right.
  - intros H. f_equal. induction batch as [|[i o] rest IH]; simpl; [done|].
    unfold Content_update_order at 2. rewrite (H i) by (simpl; by left).
    apply IH. intros id Hid. apply H. simpl. by right.
Qed.

(** Bob sends Alice's module ids. *)
Lemma reorder_foreign_batch_noop_witness :
  ModuleOrderView_post db0 20 [(5, 9); (7, 8)] =
    (db0, JsonResponse [("saved", JStr "OK")]).
Proof.
  destruct (reorder_foreign_batch_noop db0 20 [(5, 9); (7, 8)]) as [H _].
  apply H. intros id [->|[->|Hin]%elem_of_cons]%elem_of_cons; try reflexivity.
  by apply elem_of_nil in Hin.
Defined.

(** X19: Whatever the batch, the module ordering view creates and deletes no
    module, changes no field of a module other than its order, and leaves
    each module with the requester it belonged to; so does the content
    ordering view for Content rows. *)
Theorem reorder_keeps_rows (db : DB) (u : Z) (batch : list (Z * Z)) :
  let dbm := (ModuleOrderView_post db u batch).1 in
  let dbc := (ContentOrderView_post db u batch).1 in
  (dom (modules dbm) = dom (modules db) ∧
   (∀ id m', modules dbm !! id = Some m' →
      ∃ m, modules db !! id = Some m ∧
           m' = with_module_order (module_order m') m) ∧
   (∀ id v, is_Some (Module_get dbm id v) ↔ is_Some (Module_get db id v))) ∧
  (dom (contents dbc) = dom (contents db) ∧
   (∀ id c', contents dbc !! id = Some c' →
      ∃ c, contents db !! id = Some c ∧
           c' = with_content_order (content_order c') c) ∧
   (∀ id v, is_Some (Content_get dbc id v) ↔ is_Some (Content_get db id v))).
Proof.
  intros dbm dbc. subst dbm dbc.
  rewrite ModuleOrderView_post_scoped, ContentOrderView_post_scoped. simpl.
  pose proof (scoped_batch_reordered (module_owned (courses db) u)
                with_module_order with_module_order_twice batch (modules db)) as Hm.
  pose proof (scoped_batch_reordered (content_owned db u)
                with_content_order with_content_order_twice batch (contents db)) as Hc.
  split.
  - split; [|split].
    + apply set_eq. intros k. rewrite !elem_of_dom. specialize (Hm k).
      destruct (modules db !! k), (scoped_batch _ _ _ _ !! k); done.
    + intros id m' Hid. specialize (Hm id). rewrite Hid in Hm.
      destruct (modules db !! id) as [m|]; [|done]. exists m. split; [done|].
      destruct Hm as [->|[o ->]]; by destruct m.
    + intros id v. unfold Module_get. simpl. specialize (Hm id).
      destruct (modules db !! id) as [m|], (scoped_batch _ _ _ _ !! id) as [m'|];
        try done.
      destruct Hm as [->|[o ->]]; simpl; [reflexivity|].
      destruct (courses db !! module_course m) as [c|]; [|reflexivity].
      destruct (decide (course_owner c = v)); [|reflexivity].
      split; by eexists.
  - split; [|split].
    + apply set_eq. intros k. rewrite !elem_of_dom. specialize (Hc k).
      destruct (contents db !! k), (scoped_batch _ _ _ _ !! k); done.
    + intros id c' Hid. specialize (Hc id). rewrite Hid in Hc.
      destruct (contents db !! id) as [c|]; [|done]. exists c. split; [done|].
      destruct Hc as [->|[o ->]]; by destruct c.
    + intros id v. unfold Content_get. simpl. specialize (Hc id).
      destruct (contents db !! id) as [c|], (scoped_batch _ _ _ _ !! id) as [c'|];
        try done.
      destruct Hc as [->|[o ->]]; simpl.
      * rewrite (Module_get_frame db) by done. reflexivity.
      * rewrite (Module_get_frame db) by done.
        destruct (Module_get db (content_module c) v); [|reflexivity].
        split; by eexists.
Qed.

(** X20: Sending the same batch again changes nothing. *)
Theorem reorder_idempotent (db : DB) (u : Z) (batch : list (Z * Z)) :
  NoDup batch.*1 →
  ModuleOrderView_post (ModuleOrderView_post db u batch).1 u batch =
    ModuleOrderView_post db u batch ∧
  ContentOrderView_post (ContentOrderView_post db u batch).1 u batch =
    ContentOrderView_post db u batch.
Proof.
  intros Hnd. split.
  - apply injective_projections; [|done].
    rewrite (ModuleOrderView_post_scoped (ModuleOrderView_post db u batch).1).
    rewrite !ModuleOrderView_post_scoped. simpl.
    rewrite scoped_batch_idem; done.
  - apply injective_projections; [|done].
    rewrite (ContentOrderView_post_scoped (ContentOrderView_post db u batch).1).
    rewrite !ContentOrderView_post_scoped. simpl.
    change (content_owned (set_contents _ db) u) with (content_owned db u).
    rewrite scoped_batch_idem; done.
Qed.

Lemma reorder_idempotent_witness :
  ModuleOrderView_post (ModuleOrderView_post db0 10 [(5, 3); (7, 2)]).1 10
    [(5, 3); (7, 2)] = ModuleOrderView_post db0 10 [(5, 3); (7, 2)].
Proof.
  destruct (reorder_idempotent db0 10 [(5, 3); (7, 2)]) as [H _]; [|exact H].
  apply (bool_decide_unpack _). vm_compute. exact I.
Defined.

(** ** Further properties of the REST API *)

Lemma CourseEnrollView_post_store db u pk :
  (CourseEnrollView_post db u pk).1 = db ∨
  (CourseEnrollView_post db u pk).1 = students_add pk (user_id u) db.
Proof.
  unfold CourseEnrollView_post.
  destruct (negb (IsAuthenticated_has_permission u)); [by left|].
  destruct (courses db !! pk); [by right|by left].
Qed.

Lemma Course_students_app db l course :
  Course_students (set_students (students db ++ l)%list db) course =
  (Course_students db course ++
   omap (λ cu : Z * Z, if decide (cu.1 = course) then Some cu.2 else None) l)%list.
Proof. unfold Course_students. simpl. apply omap_app. Qed.

(** X21: Enrolling removes nobody and touches no other course: the request adds
    at most the requester to the student list of the course of the URL,
    every other student list is unchanged, and so are all other tables; this
    holds at both entry points. *)
Theorem enroll_frame (db : DB) (u : User) (pk : Z) :
  let r := CourseEnrollView_post db u pk in
  CourseViewSet_enroll db u pk = r ∧
  (Course_students r.1 pk = Course_students db pk ∨
   Course_students r.1 pk = (Course_students db pk ++ [user_id u])%list ∧
   user_id u ∉ Course_students db pk) ∧
  (∀ pk', pk' ≠ pk → Course_students r.1 pk' = Course_students db pk') ∧
  courses r.1 = courses db ∧ modules r.1 = modules db ∧
  contents r.1 = contents db ∧ items r.1 = items db.
Proof.
  intros r. subst r. split; [apply enroll_entry_points_agree|].
  destruct (CourseEnrollView_post_store db u pk) as [->| ->].
  { repeat split; auto. }
  unfold students_add.
  destruct (decide ((pk, user_id u) ∈ students db)) as [Hin|Hin].
  { repeat split; auto. }
  split; [|split; [|done]].
  - right. split.
    + rewrite Course_students_app. simpl. by rewrite decide_True.
    + intros Hmem. apply Hin. unfold Course_students in Hmem.
      apply list_elem_of_omap in Hmem as ([c v] & Hcv & Hsome). simpl in Hsome.
      destruct (decide (c = pk)) as [->|]; [|done]. by injection Hsome as ->.
  - intros pk' Hne. rewrite Course_students_app. simpl.
    rewrite decide_False by done. by rewrite app_nil_r.
Qed.

(** X22: The through table of the student sets never gets a pair twice. *)
Theorem enroll_keeps_pairs_distinct (db : DB) (u : User) (pk : Z) :
  NoDup (students db) →
  NoDup (students (CourseEnrollView_post db u pk).1) ∧
  NoDup (students (CourseViewSet_enroll db u pk).1).
Proof.
  intros Hnd. rewrite enroll_entry_points_agree.
  assert (NoDup (students (CourseEnrollView_post db u pk).1)) as H; [|done].
  destruct (CourseEnrollView_post_store db u pk) as [->| ->]; [done|].
  unfold students_add.
  destruct (decide ((pk, user_id u) ∈ students db)) as [Hin|Hin]; [done|].
  simpl. apply NoDup_app. split; [done|]. split.
  - intros x Hx [->|Hn]%elem_of_cons; [done|]. by apply elem_of_nil in Hn.
  - apply NoDup_singleton.
Qed.

Lemma enroll_keeps_pairs_distinct_witness :
  NoDup (students
           (CourseEnrollView_post (CourseEnrollView_post db0 bob 1).1 bob 1).1).
Proof.
  destruct (enroll_keeps_pairs_distinct (CourseEnrollView_post db0 bob 1).1 bob 1)
    as [H _]; [|exact H].
  apply (bool_decide_unpack _). vm_compute. exact I.
Defined.

(** X23: Without credentials neither enrolment entry point nor the contents
    action does anything: each answers not-authenticated, for an existing
    course as for a missing one, and no student is added. *)
Theorem api_requires_authentication (db : DB) (u : User) (pk : Z) :
  is_authenticated u = false →
  CourseEnrollView_post db u pk = (db, NotAuthenticated) ∧
  CourseViewSet_enroll db u pk = (db, NotAuthenticated) ∧
  CourseViewSet_contents db u pk = Refused NotAuthenticated.
Proof.
  intros Ha.
  unfold CourseEnrollView_post, CourseViewSet_enroll, CourseViewSet_contents,
    IsAuthenticated_has_permission.
  by rewrite Ha.
Qed.

Lemma api_requires_authentication_witness :
  CourseViewSet_enroll db0
    {| user_id := 20; is_authenticated := false; user_perms := [] |} 1 =
    (db0, NotAuthenticated).
Proof.
  destruct (api_requires_authentication db0
              {| user_id := 20; is_authenticated := false; user_perms := [] |} 1)
    as (_ & H & _); [reflexivity|exact H].
Defined.

(** X24: The contents action does not look at the student set: every
    authenticated user gets the course handed to the contents serializer,
    enrolled or not, and a missing course is not-found. *)
Theorem contents_ignores_enrolment (db : DB) (u : User) (pk : Z) :
  is_authenticated u = true →
  (∀ s, CourseViewSet_contents (set_students s db) u pk =
        CourseViewSet_contents db u pk) ∧
  (∀ c, courses db !! pk = Some c →
     CourseViewSet_contents db u pk =
       Serialized "CourseWithContentsSerializer" pk c) ∧
  (courses db !! pk = None → CourseViewSet_contents db u pk = Refused Http404).
Proof.
  intros Ha. unfold CourseViewSet_contents, IsAuthenticated_has_permission.
  rewrite Ha. simpl. rewrite CourseViewSet_get_object_lookup.
  split; [|split].
  - intros s. by rewrite CourseViewSet_get_object_lookup.
  - by intros c ->.
  - by intros ->.
Qed.

(** Carol is enrolled nowhere and reads the contents of course 2. *)
Lemma contents_ignores_enrolment_witness :
  Course_students db0 2 = [] ∧
  CourseViewSet_contents db0 carol 2 =
    Serialized "CourseWithContentsSerializer" 2 (course_of 20 "botany").
Proof.
  split; [reflexivity|].
  destruct (contents_ignores_enrolment db0 carol 2) as (_ & H & _);
    [reflexivity|].
  apply H. reflexivity.
Defined.

Lemma students_add_perm p q a b db :
  students (students_add p a (students_add q b db)) ≡ₚ
  students (students_add q b (students_add p a db)).
Proof.
  unfold students_add.
  destruct (decide ((p, a) = (q, b))) as [[= -> ->]|Hne]; [done|].
  destruct (decide ((q, b) ∈ students db)) as [Hb|Hb];
    destruct (decide ((p, a) ∈ students db)) as [Ha|Ha]; simpl;
    repeat first
      [ rewrite (decide_True (P := _ ∈ _))
          by (first [done | apply elem_of_app; by left])
      | rewrite (decide_False (P := _ ∈ _))
          by (first [done
                    | intros [?|?%list_elem_of_singleton]%elem_of_app;
                      congruence]) ];
    simpl; try done.
  rewrite <- !app_assoc. apply Permutation_app_head. simpl.
  apply Permutation_swap.
Qed.

Lemma students_add_frame p x d :
  courses (students_add p x d) = courses d ∧
  modules (students_add p x d) = modules d ∧
  contents (students_add p x d) = contents d ∧
  items (students_add p x d) = items d.
Proof. unfold students_add. by destruct (decide _). Qed.

Lemma CourseEnrollView_post_store_if db u pk :
  (CourseEnrollView_post db u pk).1 =
  if is_authenticated u && bool_decide (is_Some (courses db !! pk))
  then students_add pk (user_id u) db else db.
Proof.
  unfold CourseEnrollView_post, IsAuthenticated_has_permission.
  destruct (is_authenticated u); simpl; [|done].
  by destruct (courses db !! pk).
Qed.

Lemma CourseEnrollView_post_response db db' u pk :
  courses db' = courses db →
  (CourseEnrollView_post db' u pk).2 = (CourseEnrollView_post db u pk).2.
Proof.
  intros Hc. unfold CourseEnrollView_post. rewrite Hc.
  destruct (negb (IsAuthenticated_has_permission u)); [done|].
  by destruct (courses db !! pk).
Qed.

Lemma CourseEnrollView_post_frame db u pk :
  courses (CourseEnrollView_post db u pk).1 = courses db ∧
  modules (CourseEnrollView_post db u pk).1 = modules db ∧
  contents (CourseEnrollView_post db u pk).1 = contents db ∧
  items (CourseEnrollView_post db u pk).1 = items db.
Proof.
  rewrite CourseEnrollView_post_store_if.
  destruct (_ && _); [apply students_add_frame|done].
Qed.

(** X25: Two enrolment requests commute: in either order they answer the same and
    leave the same student sets (the same pairs in the through table). *)
Theorem enroll_requests_commute (db : DB) (u1 u2 : User) (pk1 pk2 : Z) :
  let a := CourseEnrollView_post db u1 pk1 in
  let ab := CourseEnrollView_post a.1 u2 pk2 in
  let b := CourseEnrollView_post db u2 pk2 in
  let ba := CourseEnrollView_post b.1 u1 pk1 in
  a.2 = ba.2 ∧ b.2 = ab.2 ∧
  students ab.1 ≡ₚ students ba.1 ∧
  (∀ pk, Course_students ab.1 pk ≡ₚ Course_students ba.1 pk) ∧
  courses ab.1 = courses ba.1 ∧ modules ab.1 = modules ba.1 ∧
  contents ab.1 = contents ba.1 ∧ items ab.1 = items ba.1.
Proof.
  intros a ab b ba. subst a ab b ba.
  destruct (CourseEnrollView_post_frame db u1 pk1) as (Ca & Ma & Ta & Ia).
  destruct (CourseEnrollView_post_frame db u2 pk2) as (Cb & Mb & Tb & Ib).
  destruct (CourseEnrollView_post_frame
              (CourseEnrollView_post db u1 pk1).1 u2 pk2) as (Cab & Mab & Tab & Iab).
  destruct (CourseEnrollView_post_frame
              (CourseEnrollView_post db u2 pk2).1 u1 pk1) as (Cba & Mba & Tba & Iba).
  assert (students
            (CourseEnrollView_post (CourseEnrollView_post db u1 pk1).1 u2 pk2).1 ≡ₚ
          students
            (CourseEnrollView_post (CourseEnrollView_post db u2 pk2).1 u1 pk1).1)
    as Hperm.
  { rewrite (CourseEnrollView_post_store_if (CourseEnrollView_post db u1 pk1).1).
    rewrite (CourseEnrollView_post_store_if (CourseEnrollView_post db u2 pk2).1).
    rewrite Ca, Cb, !CourseEnrollView_post_store_if.
    destruct (is_authenticated u1 && bool_decide (is_Some (courses db !! pk1)));
      destruct (is_authenticated u2 && bool_decide (is_Some (courses db !! pk2)));
      try done.
    symmetry. apply students_add_perm. }
  split; [|split; [|split; [done|split]]].
  - symmetry. by apply CourseEnrollView_post_response.
  - symmetry. by apply CourseEnrollView_post_response.
  - intros pk. unfold Course_students. by rewrite Hperm.
  - rewrite Cab, Mab, Tab, Iab, Cba, Mba, Tba, Iba. by rewrite Ca, Ma, Ta, Ia, Cb, Mb, Tb, Ib.
Qed.

Lemma course_update_frame_witness :
  let form := {| cf_subject := 2; cf_title := "linear algebra";
                 cf_slug := "linear-algebra"; cf_overview := "vectors";
                 cf_is_valid := true |} in
  courses (CourseUpdateView db0 alice POST 1 form).1 !! 2 = courses db0 !! 2 ∧
  modules (CourseUpdateView db0 alice POST 1 form).1 = modules db0.
Proof.
  intros form.
  destruct (course_update_frame db0 alice POST 1 form) as (_ & _ & Hk & Hm & _).
  split; [apply Hk; discriminate|exact Hm].
Defined.

Lemma reorder_keeps_rows_witness :
  dom (modules (ModuleOrderView_post db0 10 [(5, 3); (6, 1); (8, 2)]).1) =
    dom (modules db0) ∧
  (is_Some (Module_get (ModuleOrderView_post db0 10 [(5, 3); (6, 1); (8, 2)]).1 6 20)
   ↔ is_Some (Module_get db0 6 20)).
Proof.
  destruct (reorder_keeps_rows db0 10 [(5, 3); (6, 1); (8, 2)])
    as [(Hd & _ & Ho) _].
  split; [exact Hd|apply Ho].
Defined.

Lemma enroll_frame_witness :
  Course_students (CourseEnrollView_post db0 bob 1).1 2 = Course_students db0 2 ∧
  Course_students (CourseEnrollView_post db0 bob 1).1 1 = [20].
Proof.
  destruct (enroll_frame db0 bob 1) as (_ & Hpk & Hother & _).
  split; [apply Hother; discriminate|].
  destruct Hpk as [Hsame|[Hadd _]].
  - vm_compute in Hsame. discriminate.
  - rewrite Hadd. reflexivity.
Defined.
